(** * The incremental snapshot engine of the TikTok profile tracker

    A shallow embedding of [src/scraping/incremental_logic.py] (class
    [IncrementalScraper]) over the two tables that [src/database/models.py]
    creates.

    Conventions of the embedding.
    - A Python dictionary is a [gmap string _]; [d.get(k, v)] is
      [default v (d !! k)] and [d[k]] raises [KeyError] on a missing key.
    - A Python exception is a value [Raise e] of the result type [res].
    - Python's [float] is IEEE binary64, computed with the operations of
      [SpecFloat] at precision 53.
    - A [TIMESTAMP WITH TIME ZONE] column holds an instant, a number of
      microseconds; the driver returns it as an aware [datetime], while
      [datetime.now()] is a naive one, and Python subtracts two [datetime]s
      only when both are naive or both aware.  A [timedelta] is a number of
      microseconds.  The clock reading of a call is an explicit argument
      [now]: for a statement that passes [datetime.now()], the instant that
      the server stores for it; for [create_snapshot], whose [INSERT] names
      no timestamp, the server's [CURRENT_TIMESTAMP].
    - The database is a record of its two tables, rows in insertion order,
      and of the two [SERIAL] sequences. *)

From Stdlib Require Import ZArith SpecFloat Sorted Permutation Ascii String.
From stdpp Require Import gmap strings list fin_maps sorting pretty.

Set Warnings "-register-all,-clear-no-such-hyp".
Open Scope string_scope.
Open Scope list_scope.
Open Scope Z_scope.

(** ** Python values, exceptions and results *)

Module Py.

(** The exceptions the embedded code can meet.  [UniqueViolation],
    [ForeignKeyViolation], [DataError] and [ProgrammingError] are the
    driver's (psycopg2) classes for what PostgreSQL refuses; [OtherError]
    names any class that the embedded code itself never raises. *)
Inductive exn : Type :=
| TypeError
| KeyError (key : string)
| ZeroDivisionError
| OverflowError
| UniqueViolation
| ForeignKeyViolation
| DataError
| ProgrammingError
| OtherError (name : string).

Inductive res (A : Type) : Type :=
| Ok (a : A)
| Raise (e : exn).
Arguments Ok {A} a.
Arguments Raise {A} e.

#[export] Instance res_ret : MRet res := fun A a => Ok a.
#[export] Instance res_bind : MBind res := fun A B f m =>
  match m with
  | Ok a => f a
  | Raise e => Raise e
  end.

(** A [datetime], in microseconds: naive, the reading of a wall clock
    without [tzinfo], as [datetime.now()] returns it; or aware, an instant
    with its [tzinfo], as the driver returns a [TIMESTAMP WITH TIME ZONE]
    column. *)
Inductive datetime : Type :=
| Naive (wall : Z)
| Aware (instant : Z).

(** The values a scraped observation and a database row hold: JSON
    scalars and objects without fractional numbers, and [datetime]s. *)
Inductive value : Type :=
| VNone
| VBool (b : bool)
| VInt (z : Z)
| VStr (s : string)
| VDatetime (d : datetime)
| VDict (d : gmap string value).

(** [bool] is a subclass of [int]: [True] counts as 1 in arithmetic and
    comparisons. *)
Definition as_int (v : value) : option Z :=
  match v with
  | VInt z => Some z
  | VBool b => Some (Z.b2z b)
  | _ => None
  end.

(** [v == 0] *)
Definition eq_zero (v : value) : bool :=
  match as_int v with
  | Some z => z =? 0
  | None => false
  end.

(** [v > 0]: ordering a non-number against an [int] is a [TypeError]. *)
Definition gt_zero (v : value) : res bool :=
  match as_int v with
  | Some z => Ok (0 <? z)
  | None => Raise TypeError
  end.

(** [a - b] *)
Definition sub (a b : value) : res Z :=
  match as_int a, as_int b with
  | Some x, Some y => Ok (x - y)
  | _, _ => Raise TypeError
  end.

(** [v != s] for a string literal [s]: values of other types differ. *)
Definition ne_str (v : value) (s : string) : bool :=
  match v with
  | VStr s' => negb (String.eqb s' s)
  | _ => true
  end.

(** [d[k]] *)
Definition getitem {A} (d : gmap string A) (k : string) : res A :=
  match d !! k with
  | Some v => Ok v
  | None => Raise (KeyError k)
  end.

End Py.
Export Py.

(** ** Binary64 arithmetic *)

Module Float.

Definition prec : Z := 53.
Definition emax : Z := 1024.

Definition float : Type := spec_float.

(** An integer as an exact, not yet rounded, binary number. *)
Definition exact (z : Z) : float :=
  match z with
  | Z0 => S754_zero false
  | Zpos p => S754_finite false p 0
  | Zneg p => S754_finite true p 0
  end.

(** [float(z)]: the nearest double, ties to even. *)
Definition of_int (z : Z) : float := binary_normalize prec emax z 0 false.

(** [a / b] on two [int]s: the correctly rounded quotient;
    [OverflowError] when it is too large for a [float]. *)
Definition int_true_divide (a b : Z) : res float :=
  if b =? 0 then Raise ZeroDivisionError
  else match SFdiv prec emax (exact a) (exact b) with
       | S754_infinity _ => Raise OverflowError
       | q => Ok q
       end.

(** [x * 100] for a [float] [x] *)
Definition times_100 (x : float) : float := SFmul prec emax x (of_int 100).

(** The literal [100.0] *)
Definition lit_100 : float := S754_finite false 7036874417766400 (-46).

(** The literal [0.01], the default [change_threshold] *)
Definition lit_0_01 : float := S754_finite false 5764607523034235 (-59).

(** [abs(x)] *)
Definition abs (x : float) : float := SFabs x.

(** [x >= y]; false when either is a NaN. *)
Definition ge (x y : float) : bool :=
  match SFcompare x y with
  | Some Gt | Some Eq => true
  | _ => false
  end.

End Float.
Import Float.

(** ** The change detector *)

(** One entry of the [changes] dictionary. *)
Record change : Type := Change
  { old_value : value;
    new_value : value;
    absolute_change : value;
    percentage_change : float }.

Section Detector.

(** [self.change_threshold] *)
Variable change_threshold : float.

Definition metrics : list string :=
  ["followers_count"; "following_count"; "likes_count"; "video_count"].

(** The body of the loop of [calculate_changes] for one [metric], on the
    pair [(has_changed, changes)] built so far. *)
Definition calculate_metric (current_data last_snapshot : gmap string value)
    (acc : bool * gmap string change) (metric : string)
    : res (bool * gmap string change) :=
  let current_val := default (VInt 0) (current_data !! metric) in
  let last_val := default (VInt 0) (last_snapshot !! metric) in
  from_zero ← (if eq_zero last_val then gt_zero current_val else Ok false);
  if (from_zero : bool) then
    Ok (true,
        <[metric := {| old_value := last_val;
                       new_value := current_val;
                       absolute_change := current_val;
                       percentage_change := lit_100 |}]> (snd acc))
  else
    positive ← gt_zero last_val;
    if (positive : bool) then
      absolute ← sub current_val last_val;
      quotient ← int_true_divide absolute (default 0 (as_int last_val));
      let percentage := times_100 quotient in
      if ge (abs percentage) (times_100 change_threshold) then
        Ok (true,
            <[metric := {| old_value := last_val;
                           new_value := current_val;
                           absolute_change := VInt absolute;
                           percentage_change := percentage |}]> (snd acc))
      else Ok acc
    else Ok acc.

Fixpoint calculate_loop (current_data last_snapshot : gmap string value)
    (ms : list string) (acc : bool * gmap string change)
    : res (bool * gmap string change) :=
  match ms with
  | [] => Ok acc
  | metric :: ms' =>
      acc' ← calculate_metric current_data last_snapshot acc metric;
      calculate_loop current_data last_snapshot ms' acc'
  end.

(** [IncrementalScraper.calculate_changes] *)
Definition calculate_changes (current_data last_snapshot : gmap string value)
    : res (bool * gmap string change) :=
  calculate_loop current_data last_snapshot metrics (false, ∅).

End Detector.

(** ** The database of [src/database/models.py] *)

Module Db.

(** A row of [profiles]. *)
Record profile_row : Type := ProfileRow
  { p_id : Z;
    p_username : string;
    p_profile_id : option string;
    p_display_name : option string;
    p_bio : option string;
    p_avatar_url : option string;
    p_verified : option bool;
    p_created_at : Z;
    p_last_checked : option Z;
    p_is_active : bool }.

(** A row of [profile_snapshots]; an [INTEGER] column that admits [NULL]
    is an [option Z]. *)
Record snapshot_row : Type := SnapshotRow
  { s_id : Z;
    s_profile_id : option Z;
    s_followers_count : option Z;
    s_following_count : option Z;
    s_likes_count : option Z;
    s_video_count : option Z;
    s_snapshot_timestamp : Z;
    s_change_detected : bool;
    s_previous_snapshot_id : option Z;
    s_raw_data : value }.

(** The two tables, rows in insertion order, and the last values of the
    sequences behind the two [SERIAL] keys. *)
Record database : Type := Database
  { profiles : list profile_row;
    profile_snapshots : list snapshot_row;
    profiles_id_seq : Z;
    profile_snapshots_id_seq : Z }.

Definition empty : database :=
  {| profiles := []; profile_snapshots := [];
     profiles_id_seq := 0; profile_snapshots_id_seq := 0 |}.

Definition int4_max : Z := 2147483647.
Definition in_int4 (z : Z) : bool := (- int4_max - 1 <=? z) && (z <=? int4_max).

(** What the source leaves to the driver and to the server: how a Python
    value becomes the value of a column of a given type, and in which
    order [ORDER BY snapshot_timestamp DESC] lists its rows. *)
Record backend : Type := Backend
  { to_int4 : value -> res (option Z);
    to_varchar : nat -> value -> res (option string);
    to_text : value -> res (option string);
    to_boolean : value -> res (option bool);
    to_jsonb : value -> res value;
    order_by_timestamp_desc : list snapshot_row -> list snapshot_row }.

(** [r1] may be listed before [r2] by [ORDER BY snapshot_timestamp DESC]. *)
Definition newer_or_equal (r1 r2 : snapshot_row) : Prop :=
  s_snapshot_timestamp r2 <= s_snapshot_timestamp r1.

(** The part of the backend's behaviour that is fixed: [None] is [NULL],
    an [int] is stored as it is when it fits 32 bits, a [str] is stored as
    it is when it fits the column's length, and [ORDER BY] returns the
    rows it was given, sorted.  The order of rows with equal timestamps
    is the server's choice. *)
Record backend_ok (B : backend) : Prop := BackendOk
  { int4_none : to_int4 B VNone = Ok None;
    int4_int : forall z,
      to_int4 B (VInt z) = if in_int4 z then Ok (Some z) else Raise DataError;
    varchar_none : forall n, to_varchar B n VNone = Ok None;
    varchar_str : forall n s,
      to_varchar B n (VStr s) =
        if (String.length s <=? n)%nat then Ok (Some s) else Raise DataError;
    text_none : to_text B VNone = Ok None;
    text_str : forall s, to_text B (VStr s) = Ok (Some s);
    boolean_none : to_boolean B VNone = Ok None;
    boolean_bool : forall b, to_boolean B (VBool b) = Ok (Some b);
    jsonb_none : to_jsonb B VNone = Ok VNone;
    order_by_perm : forall l, order_by_timestamp_desc B l ≡ₚ l;
    order_by_sorted : forall l,
      StronglySorted newer_or_equal (order_by_timestamp_desc B l) }.

(** [nextval] of a [SERIAL] sequence. *)
Definition nextval (seq : Z) : res Z :=
  if seq <? int4_max then Ok (seq + 1) else Raise DataError.

Section Statements.

Variable B : backend.

(** [SELECT * FROM profile_snapshots WHERE profile_id = %s
     ORDER BY snapshot_timestamp DESC LIMIT 1] *)
Definition select_last_snapshot (db : database) (profile_id : Z)
    : option snapshot_row :=
  head (order_by_timestamp_desc B
          (filter (fun r => s_profile_id r = Some profile_id) (profile_snapshots db))).

(** [SELECT id FROM profiles WHERE username = %s] *)
Definition select_profile_id (db : database) (username : string) : option Z :=
  p_id <$> head (filter (fun r => p_username r = username) (profiles db)).

(** [UPDATE profiles SET last_checked = %s WHERE id = %s] *)
Definition update_last_checked (db : database) (now id : Z) : database :=
  {| profiles :=
       (fun r => if decide (p_id r = id)
                 then {| p_id := p_id r; p_username := p_username r;
                         p_profile_id := p_profile_id r;
                         p_display_name := p_display_name r;
                         p_bio := p_bio r; p_avatar_url := p_avatar_url r;
                         p_verified := p_verified r;
                         p_created_at := p_created_at r;
                         p_last_checked := Some now;
                         p_is_active := p_is_active r |}
                 else r) <$> profiles db;
     profile_snapshots := profile_snapshots db;
     profiles_id_seq := profiles_id_seq db;
     profile_snapshots_id_seq := profile_snapshots_id_seq db |}.

(** The two [UNIQUE] constraints of [profiles]. *)
Definition username_taken (db : database) (username : string) : bool :=
  bool_decide (Exists (fun r => p_username r = username) (profiles db)).

Definition profile_id_taken (db : database) (pid : option string) : bool :=
  match pid with
  | None => false
  | Some _ => bool_decide (Exists (fun r => p_profile_id r = pid) (profiles db))
  end.

Definition with_profiles_seq (db : database) (seq : Z) : database :=
  {| profiles := profiles db;
     profile_snapshots := profile_snapshots db;
     profiles_id_seq := seq;
     profile_snapshots_id_seq := profile_snapshots_id_seq db |}.

(** The values of one [INSERT INTO profiles], each converted to the
    type of its column, with the [id] that the sequence hands out. *)
Definition profile_values (db : database)
    (username profile_id display_name bio avatar_url verified : value)
    : res (option string * option string * option string * option string
           * option string * option bool * Z) :=
  u ← to_varchar B 100 username;
  p ← to_varchar B 100 profile_id;
  d ← to_varchar B 200 display_name;
  b ← to_text B bio;
  a ← to_text B avatar_url;
  v ← to_boolean B verified;
  id ← nextval (profiles_id_seq db);
  Ok (u, p, d, b, a, v, id).

(** [INSERT INTO profiles (username, profile_id, display_name, bio,
     avatar_url, verified, last_checked) VALUES (...) RETURNING id].
    A refused statement leaves both tables as they were; a value the
    sequence handed out before a constraint refused the row is lost. *)
Definition insert_profile (db : database) (now : Z)
    (username profile_id display_name bio avatar_url verified : value)
    : res Z * database :=
  match profile_values db username profile_id display_name bio
          avatar_url verified with
  | Raise e => (Raise e, db)
  | Ok (None, _, _, _, _, _, id) =>
      (Raise (OtherError "NotNullViolation"), with_profiles_seq db id)
  | Ok (Some u, p, d, b, a, v, id) =>
      if username_taken db u || profile_id_taken db p
      then (Raise UniqueViolation, with_profiles_seq db id)
      else (Ok id,
            {| profiles := profiles db ++
                 [ {| p_id := id; p_username := u; p_profile_id := p;
                      p_display_name := d; p_bio := b; p_avatar_url := a;
                      p_verified := v; p_created_at := now;
                      p_last_checked := Some now; p_is_active := true |} ];
               profile_snapshots := profile_snapshots db;
               profiles_id_seq := id;
               profile_snapshots_id_seq := profile_snapshots_id_seq db |})
  end.

Definition with_snapshots_seq (db : database) (seq : Z) : database :=
  {| profiles := profiles db;
     profile_snapshots := profile_snapshots db;
     profiles_id_seq := profiles_id_seq db;
     profile_snapshots_id_seq := seq |}.

(** The two [REFERENCES] constraints of [profile_snapshots]. *)
Definition profile_exists (db : database) (id : Z) : bool :=
  bool_decide (Exists (fun r => p_id r = id) (profiles db)).

Definition snapshot_exists (db : database) (id : option Z) : bool :=
  match id with
  | None => true
  | Some i => bool_decide (Exists (fun r => s_id r = i) (profile_snapshots db))
  end.

(** [INSERT INTO profile_snapshots (profile_id, followers_count,
     following_count, likes_count, video_count, change_detected,
     previous_snapshot_id, raw_data) VALUES (...) RETURNING id];
    [snapshot_timestamp] takes its default, the current time. *)
Definition insert_snapshot (db : database) (now : Z)
    (profile_id followers following likes videos : value)
    (change_detected : bool) (previous_snapshot_id raw_data : value)
    : res Z * database :=
  match
    p ← to_int4 B profile_id;
    f ← to_int4 B followers;
    g ← to_int4 B following;
    l ← to_int4 B likes;
    v ← to_int4 B videos;
    prev ← to_int4 B previous_snapshot_id;
    raw ← to_jsonb B raw_data;
    id ← nextval (profile_snapshots_id_seq db);
    Ok (p, f, g, l, v, prev, raw, id)
  with
  | Raise e => (Raise e, db)
  | Ok (p, f, g, l, v, prev, raw, id) =>
      if from_option (profile_exists db) true p && snapshot_exists db prev
      then (Ok id,
            {| profiles := profiles db;
               profile_snapshots := profile_snapshots db ++
                 [ {| s_id := id; s_profile_id := p;
                      s_followers_count := f; s_following_count := g;
                      s_likes_count := l; s_video_count := v;
                      s_snapshot_timestamp := now;
                      s_change_detected := change_detected;
                      s_previous_snapshot_id := prev;
                      s_raw_data := raw |} ];
               profiles_id_seq := profiles_id_seq db;
               profile_snapshots_id_seq := id |})
      else (Raise ForeignKeyViolation, with_snapshots_seq db id)
  end.

End Statements.

End Db.
Import Db.

(** ** The scraper *)

(** A value of the [change_analysis] dictionary: a plain value, or the
    [changes] dictionary of the detector. *)
Inductive avalue : Type :=
| AVal (v : value)
| AChanges (c : gmap string change).

(** [str.lower()], on ASCII letters (user names are ASCII). *)
Definition lower_ascii (c : ascii) : ascii :=
  let n := nat_of_ascii c in
  if ((65 <=? n) && (n <=? 90))%nat then ascii_of_nat (n + 32) else c.

Fixpoint lower (s : string) : string :=
  match s with
  | EmptyString => EmptyString
  | String c s' => String (lower_ascii c) (lower s')
  end.

(** A nullable [INTEGER] column as the driver hands it back. *)
Definition nullable (o : option Z) : value :=
  match o with
  | Some z => VInt z
  | None => VNone
  end.

(** A row of [profile_snapshots] as the dictionary that the cursor
    ([RealDictCursor]) returns: one key per column.  The column
    [snapshot_timestamp] is a [TIMESTAMP WITH TIME ZONE], which the driver
    returns as an aware [datetime]. *)
Definition row_dict (r : snapshot_row) : gmap string value :=
  {[ "id" := VInt (s_id r);
     "profile_id" := nullable (s_profile_id r);
     "followers_count" := nullable (s_followers_count r);
     "following_count" := nullable (s_following_count r);
     "likes_count" := nullable (s_likes_count r);
     "video_count" := nullable (s_video_count r);
     "snapshot_timestamp" := VDatetime (Aware (s_snapshot_timestamp r));
     "change_detected" := VBool (s_change_detected r);
     "previous_snapshot_id" := nullable (s_previous_snapshot_id r);
     "raw_data" := s_raw_data r ]}.

(** [timedelta(days=7)] and one day, in microseconds. *)
Definition microseconds_per_day : Z := 86400 * 1000000.
Definition seven_days : Z := 7 * microseconds_per_day.

(** [now - v] for the [datetime] [now], a [timedelta] in microseconds:
    two naive or two aware [datetime]s are subtracted, and a naive and an
    aware one are a [TypeError], as anything that is no [datetime] is. *)
Definition datetime_sub (now : datetime) (v : value) : res Z :=
  match now, v with
  | Naive a, VDatetime (Naive b) => Ok (a - b)
  | Aware a, VDatetime (Aware b) => Ok (a - b)
  | _, _ => Raise TypeError
  end.

Section IncrementalScraper.

(** [self.db] and [self.change_threshold] *)
Variable B : backend.
Variable change_threshold : float.

(** [IncrementalScraper.get_or_create_profile].  The method runs two
    statements; [concurrent] is what other sessions commit between the
    [SELECT] and the statement that follows it (the identity when the
    method runs alone). *)
Definition get_or_create_profile (concurrent : database -> database)
    (now : Z) (username : string) (profile_data : gmap string value)
    (db : database) : res Z * database :=
  match select_profile_id db (lower username) with
  | Some profile_id =>
      (Ok profile_id, update_last_checked (concurrent db) now profile_id)
  | None =>
      insert_profile B (concurrent db) now
        (VStr (lower username))
        (default VNone (profile_data !! "profile_id"))
        (default VNone (profile_data !! "display_name"))
        (default VNone (profile_data !! "bio"))
        (default VNone (profile_data !! "avatar_url"))
        (default (VBool false) (profile_data !! "verified"))
  end.

(** [IncrementalScraper.get_last_snapshot] *)
Definition get_last_snapshot (db : database) (profile_id : Z)
    : option (gmap string value) :=
  row_dict <$> select_last_snapshot B db profile_id.

(** [IncrementalScraper.should_create_snapshot]; [now] is what the wall
    clock reads at [datetime.now()]. *)
Definition should_create_snapshot (db : database) (now : Z) (profile_id : Z)
    (current_data : gmap string value) : res (bool * gmap string avalue) :=
  match get_last_snapshot db profile_id with
  | None => Ok (true, {[ "reason" := AVal (VStr "first_snapshot") ]})
  | Some last_snapshot =>
      '(has_changed, changes) ←
        calculate_changes change_threshold current_data last_snapshot;
      if (has_changed : bool) then
        id ← getitem last_snapshot "id";
        Ok (true, {[ "reason" := AVal (VStr "metrics_changed");
                     "changes" := AChanges changes;
                     "previous_snapshot_id" := AVal id ]})
      else
        last_timestamp ← getitem last_snapshot "snapshot_timestamp";
        time_since_last ← datetime_sub (Naive now) last_timestamp;
        if seven_days <? time_since_last then
          Ok (true, {[ "reason" := AVal (VStr "periodic_snapshot");
                       "days_since_last" :=
                         AVal (VInt (time_since_last / microseconds_per_day)) ]})
        else Ok (false, {[ "reason" := AVal (VStr "no_significant_changes") ]})
  end.

(** [change_analysis['reason'] != 'no_significant_changes'] *)
Definition reason_flag (reason : avalue) : bool :=
  match reason with
  | AVal v => ne_str v "no_significant_changes"
  | AChanges _ => true
  end.

(** [IncrementalScraper.create_snapshot].  A dictionary passed as
    [previous_snapshot_id] is refused by the driver. *)
Definition create_snapshot (db : database) (now : Z) (profile_id : Z)
    (profile_data : gmap string value) (change_analysis : gmap string avalue)
    : res Z * database :=
  match getitem change_analysis "reason" with
  | Raise e => (Raise e, db)
  | Ok reason =>
      match change_analysis !! "previous_snapshot_id" with
      | Some (AChanges _) => (Raise ProgrammingError, db)
      | previous =>
          insert_snapshot B db now
            (VInt profile_id)
            (default VNone (profile_data !! "followers_count"))
            (default VNone (profile_data !! "following_count"))
            (default VNone (profile_data !! "likes_count"))
            (default VNone (profile_data !! "video_count"))
            (reason_flag reason)
            (match previous with Some (AVal v) => v | _ => VNone end)
            (default VNone (profile_data !! "raw_data"))
      end
  end.

(** The body of the loop of [TikTokIncrementalScraper.scrape_profiles]
    ([src/main.py]) for one profile whose data was scraped: resolve the
    profile, decide, and persist when the decision says so.  The three
    calls read the clock at [t1], [t2] and [t3]; an exception of any of
    them ends the turn of this profile. *)
Definition process_profile (t1 t2 t3 : Z) (username : string)
    (profile_data : gmap string value) (db : database)
    : res (bool * gmap string avalue * option Z) * database :=
  match get_or_create_profile id t1 username profile_data db with
  | (Raise e, db1) => (Raise e, db1)
  | (Ok profile_id, db1) =>
      match should_create_snapshot db1 t2 profile_id profile_data with
      | Raise e => (Raise e, db1)
      | Ok (true, change_analysis) =>
          match create_snapshot db1 t3 profile_id profile_data change_analysis with
          | (Raise e, db2) => (Raise e, db2)
          | (Ok snapshot_id, db2) =>
              (Ok (true, change_analysis, Some snapshot_id), db2)
          end
      | Ok (false, change_analysis) => (Ok (false, change_analysis, None), db1)
      end
  end.

End IncrementalScraper.

(** One turn of [process_profile]: the clock readings of its three calls,
    the user name and the observation. *)
Record turn : Type := Turn
  { at_profile : Z;
    at_decide : Z;
    at_create : Z;
    turn_username : string;
    turn_data : gmap string value }.

Definition turn_effect (B : backend) (change_threshold : float)
    (db : database) (t : turn) : database :=
  snd (process_profile B change_threshold (at_profile t) (at_decide t)
         (at_create t) (turn_username t) (turn_data t) db).

(** Turns in sequence. *)
Definition run_turns (B : backend) (change_threshold : float)
    (turns : list turn) (db : database) : database :=
  foldl (turn_effect B change_threshold) db turns.

(** ** A backend to run the embedding on

    [ORDER BY] as a stable merge sort, and a driver that refuses every
    value whose conversion [backend_ok] leaves open; among them a
    dictionary passed for [raw_data], for which psycopg2 has no adapter. *)

#[local] Instance newer_or_equal_dec r1 r2 : Decision (newer_or_equal r1 r2).
Proof. unfold newer_or_equal. apply _. Defined.

Definition reference_backend : backend :=
  {| to_int4 := fun v =>
       match v with
       | VNone => Ok None
       | VInt z => if in_int4 z then Ok (Some z) else Raise DataError
       | _ => Raise ProgrammingError
       end;
     to_varchar := fun n v =>
       match v with
       | VNone => Ok None
       | VStr s => if (String.length s <=? n)%nat then Ok (Some s) else Raise DataError
       | _ => Raise ProgrammingError
       end;
     to_text := fun v =>
       match v with
       | VNone => Ok None
       | VStr s => Ok (Some s)
       | _ => Raise ProgrammingError
       end;
     to_boolean := fun v =>
       match v with
       | VNone => Ok None
       | VBool b => Ok (Some b)
       | _ => Raise ProgrammingError
       end;
     to_jsonb := fun v =>
       match v with
       | VNone => Ok VNone
       | _ => Raise ProgrammingError
       end;
     order_by_timestamp_desc := merge_sort newer_or_equal |}.

(** The same driver on a server that lists rows of equal timestamps the
    other way round: it sorts the rows from the last one to the first. *)
Definition reversing_backend : backend :=
  {| to_int4 := to_int4 reference_backend;
     to_varchar := to_varchar reference_backend;
     to_text := to_text reference_backend;
     to_boolean := to_boolean reference_backend;
     to_jsonb := to_jsonb reference_backend;
     order_by_timestamp_desc := fun rows =>
       merge_sort newer_or_equal (reverse rows) |}.


(** ** Sample runs *)

(** An observation that carries the four tracked metrics. *)
Definition obs (followers following likes videos : Z) : gmap string value :=
  {[ "followers_count" := VInt followers; "following_count" := VInt following;
     "likes_count" := VInt likes; "video_count" := VInt videos ]}.

Definition one_day : Z := microseconds_per_day.

(** The database after one first turn for the profile "TikTok", at time 0. *)
Definition tracked : database :=
  snd (process_profile reference_backend lit_0_01 0 0 0 "TikTok"
         (obs 1000 100 5000 20) Db.empty).

(** The snapshot that [tracked] holds. *)
Definition first_row : snapshot_row :=
  {| s_id := 1; s_profile_id := Some 1;
     s_followers_count := Some 1000; s_following_count := Some 100;
     s_likes_count := Some 5000; s_video_count := Some 20;
     s_snapshot_timestamp := 0; s_change_detected := true;
     s_previous_snapshot_id := None; s_raw_data := VNone |}.

(** [tracked] after a second turn with doubled followers, the clock still
    reading 0: two snapshots of one profile with the same timestamp. *)
Definition tied : database :=
  snd (process_profile reference_backend lit_0_01 0 0 0 "TikTok"
         (obs 2000 100 5000 20) tracked).

(** The second snapshot of [tied]. *)
Definition second_row : snapshot_row :=
  {| s_id := 2; s_profile_id := Some 1;
     s_followers_count := Some 2000; s_following_count := Some 100;
     s_likes_count := Some 5000; s_video_count := Some 20;
     s_snapshot_timestamp := 0; s_change_detected := true;
     s_previous_snapshot_id := Some 1; s_raw_data := VNone |}.

(** The analysis that lines 119 to 122 of the decision build for a
    baseline eight days old. *)
Definition periodic_analysis : gmap string avalue :=
  {[ "reason" := AVal (VStr "periodic_snapshot");
     "days_since_last" := AVal (VInt 8) ]}.

(** An observation without [followers_count], and the database after a
    first turn with it. *)
Definition partial_obs : gmap string value :=
  {[ "following_count" := VInt 100; "likes_count" := VInt 5000;
     "video_count" := VInt 20 ]}.

Definition tracked_partial : database :=
  snd (process_profile reference_backend lit_0_01 0 0 0 "TikTok"
         partial_obs Db.empty).

(** Another session that registers "TikTok" at time 5 and commits. *)
Definition other_session (db : database) : database :=
  snd (get_or_create_profile reference_backend id 5 "TikTok" ∅ db).

(** The doubles 1.0, -100.0 and -100.49999999999999. *)
Definition lit_1 : float := S754_finite false 4503599627370496 (-52).
Definition lit_minus_100 : float := S754_finite true 7036874417766400 (-46).
Definition lit_minus_100_5 : float := S754_finite true 7072058789855231 (-46).

(** Four turns: three of the profile "TikTok", with 1000, 2000 and 3000
    followers, whose snapshots are stamped one day, three days and two
    days after time 0 (the third insert belongs to a transaction that began
    before the second), and one of the profile "nasa", five days after
    time 0; and the database that they leave. *)
Definition archive_turns : list turn :=
  [ Turn 0 0 one_day "TikTok" (obs 1000 100 5000 20);
    Turn 0 0 (3 * one_day) "TikTok" (obs 2000 100 5000 20);
    Turn 0 0 (2 * one_day) "TikTok" (obs 3000 100 5000 20);
    Turn 0 0 (5 * one_day) "nasa" (obs 7 7 7 7) ].

Definition archive : database :=
  run_turns reference_backend lit_0_01 archive_turns Db.empty.

(** The four snapshots of [archive]. *)
Definition archive_row (id profile_id followers following likes videos days : Z)
    (previous : option Z) : snapshot_row :=
  {| s_id := id; s_profile_id := Some profile_id;
     s_followers_count := Some followers; s_following_count := Some following;
     s_likes_count := Some likes; s_video_count := Some videos;
     s_snapshot_timestamp := days * one_day; s_change_detected := true;
     s_previous_snapshot_id := previous; s_raw_data := VNone |}.

Definition archive_rows : list snapshot_row :=
  [ archive_row 1 1 1000 100 5000 20 1 None;
    archive_row 2 1 2000 100 5000 20 3 (Some 1);
    archive_row 3 1 3000 100 5000 20 2 (Some 2);
    archive_row 4 2 7 7 7 7 5 None ].

(** ** The acquisition of [src/scraping/scrapfly_client.py] *)

(** [obj[key]] on a decoded JSON value: only a dictionary is subscripted
    by a string. *)
Definition subscript (obj : value) (key : string) : res value :=
  match obj with
  | VDict d => getitem d key
  | _ => Raise TypeError
  end.

(** [ScrapflyService._parse_profile_data], from the decoded JSON of the
    page's [__UNIVERSAL_DATA_FOR_REHYDRATION__] script; [document] is [None]
    when the page has no such script or its text does not decode (a
    [ValueError] either way).  Only a dictionary has the method [get]. *)
Definition parse_profile_data (document : option value) (username : string)
    : res (gmap string value) :=
  match document with
  | None => Raise (OtherError "ValueError")
  | Some data =>
      scope ← subscript data "__DEFAULT_SCOPE__";
      detail ← subscript scope "webapp.user-detail";
      info ← subscript detail "userInfo";
      user_info ← subscript info "user";
      match user_info with
      | VDict u =>
          Ok {[ "username" := VStr username;
                "profile_id" := default VNone (u !! "id");
                "display_name" := default VNone (u !! "nickname");
                "bio" := default VNone (u !! "signature");
                "avatar_url" := default VNone (u !! "avatarLarger");
                "verified" := default (VBool false) (u !! "verified");
                "followers_count" := default (VInt 0) (u !! "followerCount");
                "following_count" := default (VInt 0) (u !! "followingCount");
                "likes_count" := default (VInt 0) (u !! "heartCount");
                "video_count" := default (VInt 0) (u !! "videoCount");
                "raw_data" := user_info ]}
      | _ => Raise (OtherError "AttributeError")
      end
  end.

(** What the scraping service answered: whether the response succeeded and
    the decoded document of its page. *)
Record response : Type := Response
  { success : bool;
    document : option value }.

(** [ScrapflyService.scrape_profile]; [fetched] is [None] when the request
    itself raised.  Every failure, of the request or of the parser, is
    logged and answered with [None]. *)
Definition scrape_profile (fetched : option response) (username : string)
    : option (gmap string value) :=
  match fetched with
  | None => None
  | Some r =>
      if success r then
        match parse_profile_data (document r) username with
        | Ok profile_data => Some profile_data
        | Raise _ => None
        end
      else None
  end.

(** ** The drivers of [src/main.py] and [src/web_app.py] *)

(** What one turn of a driver meets: the answer of the scraping service
    and the clock readings of the three calls of the scraper. *)
Record turn_env : Type := TurnEnv
  { fetched : option response;
    t_profile : Z;
    t_decide : Z;
    t_create : Z }.

(** One entry of the list that [scrape_profiles] returns: the scrape
    failed, a call raised, or the turn completed. *)
Inductive turn_result : Type :=
| ScrapeFailed (username : string)
| TurnRaised (username : string) (e : exn)
| TurnDone (profile_id : Z) (username : string) (should_create : bool)
    (change_analysis : gmap string avalue) (snapshot_id : option Z).

(** One entry of the list that [run_scraping] returns. *)
Inductive scraping_status : Type :=
| StatusFailed (username : string)
| StatusError (username : string) (e : exn)
| StatusSuccess (username : string) (profile_id : Z) (new_snapshot : bool)
    (reason : avalue) (snapshot_id : option Z).

Section Drivers.

Variable B : backend.
Variable change_threshold : float.

(** The body of the loop of [TikTokIncrementalScraper.scrape_profiles] for
    one [username]. *)
Definition scrape_turn (env : turn_env) (username : string) (db : database)
    : turn_result * database :=
  match scrape_profile (fetched env) username with
  | None => (ScrapeFailed username, db)
  | Some profile_data =>
      if (size profile_data =? 0)%nat then (ScrapeFailed username, db)
      else
        match get_or_create_profile B id (t_profile env) username profile_data db with
        | (Raise e, db1) => (TurnRaised username e, db1)
        | (Ok profile_id, db1) =>
            match should_create_snapshot B change_threshold db1 (t_decide env)
                    profile_id profile_data with
            | Raise e => (TurnRaised username e, db1)
            | Ok (true, change_analysis) =>
                match create_snapshot B db1 (t_create env) profile_id
                        profile_data change_analysis with
                | (Raise e, db2) => (TurnRaised username e, db2)
                | (Ok snapshot_id, db2) =>
                    (TurnDone profile_id username true change_analysis
                       (Some snapshot_id), db2)
                end
            | Ok (false, change_analysis) =>
                (TurnDone profile_id username false change_analysis None, db1)
            end
        end
  end.

(** [TikTokIncrementalScraper.scrape_profiles]: the turns of [usernames]
    in order, the [i]-th turn meeting [env i]. *)
Fixpoint scrape_profiles_from (env : nat -> turn_env) (i : nat)
    (usernames : list string) (db : database) : list turn_result * database :=
  match usernames with
  | [] => ([], db)
  | username :: rest =>
      let '(result, db1) := scrape_turn (env i) username db in
      let '(results, db2) := scrape_profiles_from env (S i) rest db1 in
      (result :: results, db2)
  end.

Definition scrape_profiles (env : nat -> turn_env) (usernames : list string)
    (db : database) : list turn_result * database :=
  scrape_profiles_from env 0 usernames db.

(** The body of the loop of [run_scraping] ([src/web_app.py]) for one
    [username]. *)
Definition run_scraping_turn (env : turn_env) (username : string) (db : database)
    : scraping_status * database :=
  match scrape_profile (fetched env) username with
  | None => (StatusFailed username, db)
  | Some profile_data =>
      if (size profile_data =? 0)%nat then (StatusFailed username, db)
      else
        match get_or_create_profile B id (t_profile env) username profile_data db with
        | (Raise e, db1) => (StatusError username e, db1)
        | (Ok profile_id, db1) =>
            match should_create_snapshot B change_threshold db1 (t_decide env)
                    profile_id profile_data with
            | Raise e => (StatusError username e, db1)
            | Ok (should_create, change_analysis) =>
                match getitem change_analysis "reason" with
                | Raise e => (StatusError username e, db1)
                | Ok reason =>
                    if (should_create : bool) then
                      match create_snapshot B db1 (t_create env) profile_id
                              profile_data change_analysis with
                      | (Raise e, db2) => (StatusError username e, db2)
                      | (Ok snapshot_id, db2) =>
                          (StatusSuccess username profile_id true reason
                             (Some snapshot_id), db2)
                      end
                    else (StatusSuccess username profile_id false reason None, db1)
                end
            end
        end
  end.

(** [run_scraping] *)
Fixpoint run_scraping_from (env : nat -> turn_env) (i : nat)
    (profiles : list string) (db : database) : list scraping_status * database :=
  match profiles with
  | [] => ([], db)
  | username :: rest =>
      let '(result, db1) := run_scraping_turn (env i) username db in
      let '(results, db2) := run_scraping_from env (S i) rest db1 in
      (result :: results, db2)
  end.

Definition run_scraping (env : nat -> turn_env) (profiles : list string)
    (db : database) : list scraping_status * database :=
  run_scraping_from env 0 profiles db.

End Drivers.

(** [TikTokIncrementalScraper.get_stats]: the three counts. *)
Record stats : Type := Stats
  { total_profiles : nat;
    total_snapshots : nat;
    changed_snapshots : nat }.

Definition get_stats (db : database) : stats :=
  {| total_profiles := length (profiles db);
     total_snapshots := length (profile_snapshots db);
     changed_snapshots :=
       length (filter (fun r => s_change_detected r = true) (profile_snapshots db)) |}.

(** ** The input form of [src/web_app.py] *)

(** [str.isspace] on a character below 256. *)
Definition isspace (c : ascii) : bool :=
  let n := nat_of_ascii c in
  ((9 <=? n) && (n <=? 13) || (28 <=? n) && (n <=? 32)
   || (n =? 133) || (n =? 160))%nat.

(** [s.split(sep)] for a separator of one character. *)
Fixpoint split_on (sep : ascii) (s : string) : list string :=
  match s with
  | EmptyString => [EmptyString]
  | String c rest =>
      if Ascii.eqb c sep then EmptyString :: split_on sep rest
      else match split_on sep rest with
           | piece :: pieces => String c piece :: pieces
           | [] => [String c EmptyString]
           end
  end.

(** [s.replace(old, new)] for single characters. *)
Fixpoint replace (old new : ascii) (s : string) : string :=
  match s with
  | EmptyString => EmptyString
  | String c rest =>
      String (if Ascii.eqb c old then new else c) (replace old new rest)
  end.

(** [s.split()]: the maximal runs of characters that are not white space,
    [word] being the run read so far. *)
Fixpoint split_from (word s : string) : list string :=
  match s with
  | EmptyString => if String.eqb word "" then [] else [word]
  | String c rest =>
      if isspace c
      then (if String.eqb word "" then [] else [word]) ++ split_from "" rest
      else split_from (word +:+ String c "") rest
  end.

Definition split (s : string) : list string := split_from "" s.

(** [s.lstrip(chars)], [s.rstrip(chars)] and [s.strip()], the characters to
    strip given as a test. *)
Fixpoint lstrip (strips : ascii -> bool) (s : string) : string :=
  match s with
  | EmptyString => EmptyString
  | String c rest => if strips c then lstrip strips rest else s
  end.

Fixpoint rstrip (strips : ascii -> bool) (s : string) : string :=
  match s with
  | EmptyString => EmptyString
  | String c rest =>
      match rstrip strips rest with
      | EmptyString => if strips c then EmptyString else String c EmptyString
      | kept => String c kept
      end
  end.

Definition strip (s : string) : string := rstrip isspace (lstrip isspace s).

(** The list [line_profiles] that [add_profiles] builds from one line. *)
Definition line_profiles (line : string) : list string :=
  (fun p => lstrip (Ascii.eqb "@") (strip p))
    <$> filter (fun p => strip p ≠ "") (split (replace "," " " line)).

(** The list [profiles] of [add_profiles] before duplicates are removed. *)
Definition parsed_profiles (profiles_text : string) : list string :=
  split_on "010" profiles_text ≫= line_profiles.

(** [add_profiles], for a request whose [profiles] is a string: [None] is
    the answer [No valid profiles provided], and otherwise the names are
    stored in the session.  [list(set(profiles))] enumerates the names in an
    order that the language leaves open; the model keeps the set. *)
Definition add_profiles (profiles_text : string) : option (gset string) :=
  let profiles : gset string := list_to_set (parsed_profiles profiles_text) in
  if decide (profiles = ∅) then None else Some profiles.

(** Every character of [s] passes the test. *)
Fixpoint string_forall (test : ascii -> bool) (s : string) : bool :=
  match s with
  | EmptyString => true
  | String c rest => test c && string_forall test rest
  end.

(** A character that a monitored name can hold: no white space, no comma. *)
Definition name_char (c : ascii) : bool :=
  negb (isspace c) && negb (Ascii.eqb c ",").

(** [k] at signs. *)
Fixpoint at_signs (k : nat) : string :=
  match k with
  | O => EmptyString
  | S k' => String "@" (at_signs k')
  end.

(** ** Calls in sequence *)

(** A call of one of the two writing methods of the scraper, run alone. *)
Inductive call : Type :=
| CallProfile (now : Z) (username : string) (profile_data : gmap string value)
| CallSnapshot (now profile_id : Z) (profile_data : gmap string value)
    (change_analysis : gmap string avalue).

Definition call_effect (B : backend) (db : database) (c : call) : database :=
  match c with
  | CallProfile now username profile_data =>
      snd (get_or_create_profile B id now username profile_data db)
  | CallSnapshot now profile_id profile_data change_analysis =>
      snd (create_snapshot B db now profile_id profile_data change_analysis)
  end.

Definition run_calls (B : backend) (calls : list call) (db : database) : database :=
  foldl (call_effect B) db calls.

(** What the constraints of the schema and the sequences keep true of a
    database. *)
Record db_ok (db : database) : Prop := DbOk
  { usernames_unique : NoDup (p_username <$> profiles db);
    profile_ids_unique : NoDup (p_id <$> profiles db);
    profile_ids_issued : forall r, r ∈ profiles db ->
      0 < p_id r <= profiles_id_seq db;
    snapshot_ids_increase :
      StronglySorted Z.lt (s_id <$> profile_snapshots db);
    snapshot_ids_issued : forall r, r ∈ profile_snapshots db ->
      0 < s_id r <= profile_snapshots_id_seq db;
    snapshot_profile_known : forall r p, r ∈ profile_snapshots db ->
      s_profile_id r = Some p -> exists q, q ∈ profiles db /\ p_id q = p;
    snapshot_previous_older : forall r i, r ∈ profile_snapshots db ->
      s_previous_snapshot_id r = Some i ->
      i < s_id r /\ exists r', r' ∈ profile_snapshots db /\ s_id r' = i;
    profiles_seq_nonneg : 0 <= profiles_id_seq db;
    snapshots_seq_nonneg : 0 <= profile_snapshots_id_seq db }.

(** Two rows of [profiles] that differ at most in [last_checked]. *)
Definition same_profile (r r' : profile_row) : Prop :=
  p_id r' = p_id r /\ p_username r' = p_username r /\
  p_profile_id r' = p_profile_id r /\ p_display_name r' = p_display_name r /\
  p_bio r' = p_bio r /\ p_avatar_url r' = p_avatar_url r /\
  p_verified r' = p_verified r /\ p_created_at r' = p_created_at r /\
  p_is_active r' = p_is_active r.

(** The tables after a call extend the tables before it. *)
Definition extends (db db' : database) : Prop :=
  (exists rows, profile_snapshots db' = profile_snapshots db ++ rows) /\
  (exists old new, profiles db' = old ++ new /\
                   Forall2 same_profile (profiles db) old).

(** The value that [create_snapshot] passes as [previous_snapshot_id]. *)
Definition previous_value (change_analysis : gmap string avalue) : value :=
  match change_analysis !! "previous_snapshot_id" with
  | Some (AVal v) => v
  | _ => VNone
  end.

(** A decoded document with the given user object. *)
Definition document_of (user : gmap string value) : value :=
  VDict {[ "__DEFAULT_SCOPE__" :=
    VDict {[ "webapp.user-detail" :=
      VDict {[ "userInfo" := VDict {[ "user" := VDict user ]} ]} ]} ]}.


(** The entry of [run_scraping] for a turn of which [scrape_profiles] has
    the entry [r]. *)
Definition status_of (r : turn_result) : scraping_status :=
  match r with
  | ScrapeFailed username => StatusFailed username
  | TurnRaised username e => StatusError username e
  | TurnDone profile_id username should_create change_analysis snapshot_id =>
      match change_analysis !! "reason" with
      | Some reason =>
          StatusSuccess username profile_id should_create reason snapshot_id
      | None => StatusError username (KeyError "reason")
      end
  end.

(** Every back-reference leads to a snapshot of the same profile, the
    newest of those that the profile had before. *)
Definition chain_ok (db : database) : Prop :=
  forall r i, r ∈ profile_snapshots db -> s_previous_snapshot_id r = Some i ->
    exists r', r' ∈ profile_snapshots db /\ s_id r' = i /\
               s_profile_id r' = s_profile_id r /\
               forall q, q ∈ profile_snapshots db ->
                 s_profile_id q = s_profile_id r -> s_id q < s_id r ->
                 s_snapshot_timestamp q <= s_snapshot_timestamp r'.

(** A snapshot without a back-reference is the oldest of its profile. *)
Definition first_is_oldest (db : database) : Prop :=
  forall r r' p, r ∈ profile_snapshots db -> r' ∈ profile_snapshots db ->
    s_profile_id r = Some p -> s_profile_id r' = Some p ->
    s_previous_snapshot_id r' = None -> s_id r' <= s_id r.

(** Every snapshot is flagged. *)
Definition all_flagged (db : database) : Prop :=
  Forall (fun r => s_change_detected r = true) (profile_snapshots db).

(** A scraping service whose [i]-th answer shows [1000 * (i + 1)]
    followers, and a clock that reads [i] days at the [i]-th turn. *)
Definition growing_env (i : nat) : turn_env :=
  {| fetched :=
       Some {| success := true;
               document := Some (document_of
                 {[ "id" := VStr "42"; "nickname" := VStr "Sample";
                    "followerCount" := VInt (1000 * (Z.of_nat i + 1));
                    "followingCount" := VInt 100;
                    "heartCount" := VInt 5000; "videoCount" := VInt 20 ]}) |};
     t_profile := Z.of_nat i * one_day;
     t_decide := Z.of_nat i * one_day;
     t_create := Z.of_nat i * one_day |}.

(** psycopg2 has no adapter for a [dict]: a dictionary passed as a
    parameter of a statement is refused. *)
Definition adapts_no_dict (B : backend) : Prop :=
  forall d, to_jsonb B (VDict d) = Raise ProgrammingError.

(** An entry of the result list that reports no success. *)
Definition failed (r : turn_result) : Prop :=
  match r with
  | TurnDone _ _ _ _ _ => False
  | _ => True
  end.

(** The profile that [tracked] holds. *)
Definition tracked_profile : profile_row :=
  {| p_id := 1; p_username := "tiktok"; p_profile_id := None;
     p_display_name := None; p_bio := None; p_avatar_url := None;
     p_verified := Some false; p_created_at := 0;
     p_last_checked := Some 0; p_is_active := true |}.

(** The snapshot that [tracked_partial] holds. *)
Definition partial_row : snapshot_row :=
  {| s_id := 1; s_profile_id := Some 1;
     s_followers_count := None; s_following_count := Some 100;
     s_likes_count := Some 5000; s_video_count := Some 20;
     s_snapshot_timestamp := 0; s_change_detected := true;
     s_previous_snapshot_id := None; s_raw_data := VNone |}.

(** The analysis of a decision that saw a change since snapshot 1. *)
Definition changed_analysis : gmap string avalue :=
  {[ "reason" := AVal (VStr "metrics_changed");
     "previous_snapshot_id" := AVal (VInt 1) ]}.

(** A user object with 1000 followers. *)
Definition sample_user : gmap string value :=
  {[ "id" := VStr "42"; "nickname" := VStr "Sample";
     "followerCount" := VInt 1000; "followingCount" := VInt 100;
     "heartCount" := VInt 5000; "videoCount" := VInt 20 ]}.

(** * Properties *)

(** ** Results *)

Lemma bind_Ok {A B} (m : res A) (k : A -> res B) (b : B) :
  m ≫= k = Ok b -> exists a, m = Ok a /\ k a = Ok b.
Proof. destruct m as [a|e]; simpl; [eauto | discriminate]. Qed.

Lemma bind_Raise {A B} (m : res A) (k : A -> res B) (e : exn) :
  m ≫= k = Raise e -> m = Raise e \/ exists a, m = Ok a /\ k a = Raise e.
Proof. destruct m as [a|e']; simpl; [eauto | intros [= ->]; auto]. Qed.

(** Unfold one bind of a hypothesis [H : _ ≫= _ = Ok _]. *)
Ltac bind_inv H :=
  let a := fresh "a" in
  let Ha := fresh "Ha" in
  apply bind_Ok in H; destruct H as (a & Ha & H).

(** ** The detector *)

Section DetectorFacts.

Variable change_threshold : float.
Variables current_data last_snapshot : gmap string value.

Local Abbreviation step := (calculate_metric change_threshold current_data last_snapshot).
Local Abbreviation loop := (calculate_loop change_threshold current_data last_snapshot).

Lemma metrics_NoDup : NoDup metrics.
Proof. unfold metrics. repeat constructor; set_solver. Qed.

(** One turn of the loop writes at most the entry of its own metric, and
    never clears the flag. *)
Lemma calculate_metric_frame acc metric r :
  step acc metric = Ok r ->
  (fst acc = true -> fst r = true) /\
  (forall k, k ≠ metric -> snd r !! k = snd acc !! k).
Proof.
  unfold calculate_metric. intros H.
  bind_inv H. destruct a.
  - injection H as <-. split; [done|]. intros k Hk. simpl.
    by rewrite lookup_insert_ne.
  - bind_inv H. destruct a; [|by injection H as <-].
    bind_inv H. bind_inv H.
    destruct (ge _ _); injection H as <-; [|done].
    split; [done|]. intros k Hk. simpl. by rewrite lookup_insert_ne.
Qed.

(** The flag is set exactly when an entry is written. *)
Lemma calculate_metric_flag acc metric r :
  step acc metric = Ok r ->
  (fst acc = true <-> exists k, is_Some (snd acc !! k)) ->
  (fst r = true <-> exists k, is_Some (snd r !! k)).
Proof.
  unfold calculate_metric. intros H Hacc.
  assert (forall c, (true = true <-> exists k,
            is_Some (<[metric:=c]> (snd acc) !! k))) as Hins.
  { intros c. split; [|done]. intros _. exists metric.
    rewrite lookup_insert_eq. eauto. }
  bind_inv H. destruct a.
  - injection H as <-. apply Hins.
  - bind_inv H. destruct a; [|by injection H as <-].
    bind_inv H. bind_inv H.
    destruct (ge _ _); injection H as <-; [apply Hins | done].
Qed.

Lemma calculate_loop_frame ms : forall acc r,
  loop ms acc = Ok r ->
  (fst acc = true -> fst r = true) /\
  (forall k, k ∉ ms -> snd r !! k = snd acc !! k).
Proof.
  induction ms as [|m ms IH]; intros acc r H; simpl in H.
  - by injection H as <-.
  - bind_inv H. apply calculate_metric_frame in Ha as [Hf Hk].
    apply IH in H as [Hf' Hk']. split; [auto|].
    intros k Hin. rewrite Hk', Hk; [done| |]; set_solver.
Qed.

Lemma calculate_loop_flag ms : forall acc r,
  loop ms acc = Ok r ->
  (fst acc = true <-> exists k, is_Some (snd acc !! k)) ->
  (fst r = true <-> exists k, is_Some (snd r !! k)).
Proof.
  induction ms as [|m ms IH]; intros acc r H Hacc; simpl in H.
  - by injection H as <-.
  - bind_inv H. eapply IH; [exact H|].
    eapply calculate_metric_flag; eauto.
Qed.

(** What the loop leaves at a metric is what the turn of that metric
    wrote. *)
Lemma calculate_loop_at ms metric : forall acc r,
  NoDup ms -> metric ∈ ms ->
  loop ms acc = Ok r ->
  exists acc0 r0,
    step acc0 metric = Ok r0 /\
    snd acc0 !! metric = snd acc !! metric /\
    snd r !! metric = snd r0 !! metric /\
    (fst r0 = true -> fst r = true).
Proof.
  induction ms as [|m ms IH]; intros acc r Hnd Hin H; [set_solver|].
  simpl in H. bind_inv H.
  apply NoDup_cons in Hnd as [Hm Hnd].
  destruct (decide (metric = m)) as [->|Hne].
  - exists acc, a. apply calculate_loop_frame in H as [Hf Hk].
    split_and!; auto.
  - assert (metric ∈ ms) as Hin' by set_solver.
    destruct (IH a r Hnd Hin' H) as (acc0 & r0 & H1 & H2 & H3 & H4).
    exists acc0, r0. split_and!; auto.
    rewrite H2. apply calculate_metric_frame in Ha as [_ Hk]. by apply Hk.
Qed.

(** The outcome of [calculate_changes] at one tracked metric. *)
Lemma calculate_changes_at metric has_changed changes :
  metric ∈ metrics ->
  calculate_changes change_threshold current_data last_snapshot
    = Ok (has_changed, changes) ->
  exists acc0 r0,
    step acc0 metric = Ok r0 /\
    snd acc0 !! metric = None /\
    changes !! metric = snd r0 !! metric /\
    (fst r0 = true -> has_changed = true).
Proof.
  intros Hin H.
  destruct (calculate_loop_at metrics metric _ _ metrics_NoDup Hin H)
    as (acc0 & r0 & H1 & H2 & H3 & H4).
  exists acc0, r0. split_and!; auto.
Qed.

(** [has_changed] is set exactly when [changes] has an entry. *)
Lemma calculate_changes_flag has_changed changes :
  calculate_changes change_threshold current_data last_snapshot
    = Ok (has_changed, changes) ->
  (has_changed = true <-> exists k, is_Some (changes !! k)).
Proof.
  intros H. apply (calculate_loop_flag _ _ _ H). simpl. split; [done|].
  intros [k Hk]. rewrite lookup_empty in Hk. by destruct Hk.
Qed.

(** The detector raises nothing but what its arithmetic raises. *)
(** The division is guarded by [last_val > 0]: the detector never divides
    by zero. *)
Lemma calculate_metric_raises acc metric e :
  step acc metric = Raise e -> e = TypeError \/ e = OverflowError.
Proof.
  unfold calculate_metric, gt_zero, eq_zero, sub, int_true_divide.
  destruct (as_int (default (VInt 0) (last_snapshot !! metric))) as [b|];
    destruct (as_int (default (VInt 0) (current_data !! metric))) as [c|];
    simpl; intros H.
  all: repeat match type of H with
  | Ok _ = Raise _ => discriminate H
  | Raise _ = Raise _ => injection H as <-; auto
  | context [if ?x then _ else _] => destruct x eqn:?; simpl in H
  | context [match ?x with _ => _ end] => destruct x eqn:?; simpl in H
  end.
  all: lia.
Qed.

Lemma calculate_loop_raises ms : forall acc e,
  loop ms acc = Raise e -> e = TypeError \/ e = OverflowError.
Proof.
  induction ms as [|m ms IH]; intros acc e H; simpl in H; [discriminate|].
  apply bind_Raise in H as [H|(a & _ & H)]; eauto using calculate_metric_raises.
Qed.

End DetectorFacts.

(** A number that is not a NaN is [>=] itself. *)
Lemma ge_refl (x : float) : x ≠ S754_nan -> ge x x = true.
Proof.
  unfold ge. destruct x as [s|s| |s m e]; simpl; try done.
  - by destruct s.
  - intros _. rewrite Z.compare_refl, Pos.compare_cont_refl. by destruct s.
Qed.

(** The literal [100.0] is the double of the integer 100. *)
Lemma lit_100_exact : of_int 100 = lit_100.
Proof. reflexivity. Qed.

(** C2. For a tracked metric whose baseline value [b] is positive and whose
    current value is [c], [calculate_changes] divides [c - b] by [b], takes
    the quotient times 100 as the percent delta, and writes the entry
    [{old_value: b, new_value: c, absolute_change: c - b,
    percentage_change}] exactly when the absolute percent delta is [>=]
    the threshold times 100; an entry written sets [has_changed].  The
    comparison is inclusive: a percent delta equal to the threshold times
    100 is recorded. *)
Theorem calculate_changes_positive_baseline
    (change_threshold : float) (current_data last_snapshot : gmap string value)
    (metric : string) (b c : Z) (has_changed : bool) (changes : gmap string change) :
  metric ∈ metrics ->
  default (VInt 0) (last_snapshot !! metric) = VInt b ->
  0 < b ->
  default (VInt 0) (current_data !! metric) = VInt c ->
  calculate_changes change_threshold current_data last_snapshot
    = Ok (has_changed, changes) ->
  exists quotient,
    int_true_divide (c - b) b = Ok quotient /\
    let percentage := times_100 quotient in
    let recorded := ge (abs percentage) (times_100 change_threshold) in
    changes !! metric =
      (if recorded
       then Some {| old_value := VInt b; new_value := VInt c;
                    absolute_change := VInt (c - b);
                    percentage_change := percentage |}
       else None) /\
    (recorded = true -> has_changed = true) /\
    (has_changed = true <-> exists k, is_Some (changes !! k)) /\
    (abs percentage = times_100 change_threshold ->
     times_100 change_threshold ≠ S754_nan -> recorded = true).
Proof.
  intros Hin Hlast Hb Hcur H.
  pose proof (calculate_changes_flag _ _ _ _ _ H) as Hany.
  destruct (calculate_changes_at _ _ _ _ _ _ Hin H)
    as (acc0 & r0 & Hstep & Hacc & Hch & Hflag).
  unfold calculate_metric in Hstep. rewrite Hlast, Hcur in Hstep.
  unfold eq_zero, gt_zero, sub in Hstep. simpl in Hstep.
  rewrite (proj2 (Z.eqb_neq b 0)) in Hstep by lia. simpl in Hstep.
  rewrite (proj2 (Z.ltb_lt 0 b)) in Hstep by lia. simpl in Hstep.
  destruct (int_true_divide (c - b) b) as [q|e] eqn:Hq; [|discriminate].
  simpl in Hstep. exists q. split; [done|]. cbv zeta.
  destruct (ge (abs (times_100 q)) (times_100 change_threshold)) eqn:Hge.
  - injection Hstep as <-. simpl in *. rewrite Hch, lookup_insert_eq.
    split_and!; auto.
  - injection Hstep as <-. rewrite Hch, Hacc. split_and!; [done|done|done|].
    intros Heq Hnan. rewrite Heq, ge_refl in Hge; done.
Qed.

(** C3. For a tracked metric whose baseline value is 0: a current value
    [c > 0] is recorded as [{old_value: 0, new_value: c, absolute_change: c,
    percentage_change: 100.0}], the literal [100.0] whatever [c] is, and
    sets [has_changed]; a current value 0 leaves no entry for the metric,
    and [has_changed] is then set only if another metric has an entry. *)
Theorem calculate_changes_zero_baseline
    (change_threshold : float) (current_data last_snapshot : gmap string value)
    (metric : string) (c : Z) (has_changed : bool) (changes : gmap string change) :
  metric ∈ metrics ->
  default (VInt 0) (last_snapshot !! metric) = VInt 0 ->
  default (VInt 0) (current_data !! metric) = VInt c ->
  0 <= c ->
  calculate_changes change_threshold current_data last_snapshot
    = Ok (has_changed, changes) ->
  (0 < c ->
     changes !! metric =
       Some {| old_value := VInt 0; new_value := VInt c;
               absolute_change := VInt c; percentage_change := lit_100 |} /\
     has_changed = true) /\
  (c = 0 ->
     changes !! metric = None /\
     (has_changed = true -> exists k, k ≠ metric /\ is_Some (changes !! k))).
Proof.
  intros Hin Hlast Hcur Hc H.
  destruct (calculate_changes_at _ _ _ _ _ _ Hin H)
    as (acc0 & r0 & Hstep & Hacc & Hch & Hflag).
  unfold calculate_metric in Hstep. rewrite Hlast, Hcur in Hstep.
  unfold eq_zero, gt_zero in Hstep. simpl in Hstep. split.
  - intros Hpos. rewrite (proj2 (Z.ltb_lt 0 c)) in Hstep by lia.
    simpl in Hstep. injection Hstep as <-. simpl in *.
    rewrite Hch, lookup_insert_eq. auto.
  - intros ->. simpl in Hstep. injection Hstep as <-.
    assert (changes !! metric = None) as Hnone by (by rewrite Hch).
    split; [done|]. intros Htrue.
    apply calculate_changes_flag in H. apply H in Htrue as [k Hk].
    exists k. split; [|done]. intros ->. rewrite Hnone in Hk. by destruct Hk.
Qed.

(** ** The backend *)

#[local] Instance newer_or_equal_trans : Transitive newer_or_equal.
Proof. unfold newer_or_equal. intros x y z. lia. Qed.

#[local] Instance newer_or_equal_total : Total newer_or_equal.
Proof. unfold newer_or_equal. intros x y. lia. Qed.

Lemma reference_backend_ok : backend_ok reference_backend.
Proof.
  split; try done; simpl.
  - apply merge_sort_Permutation.
  - intros l. apply (StronglySorted_merge_sort _).
Qed.

Lemma reversing_backend_ok : backend_ok reversing_backend.
Proof.
  split; try done; simpl.
  - intros l. rewrite merge_sort_Permutation. apply reverse_Permutation.
  - intros l. apply (StronglySorted_merge_sort _).
Qed.

Lemma tracked_rows : profile_snapshots tracked = [first_row].
Proof. vm_compute. reflexivity. Qed.

Lemma archive_snapshots : profile_snapshots archive = archive_rows.
Proof. vm_compute. reflexivity. Qed.

(** The columns of a row that the scraper reads. *)
Lemma row_dict_id r : row_dict r !! "id" = Some (VInt (s_id r)).
Proof. reflexivity. Qed.

Lemma row_dict_timestamp r :
  row_dict r !! "snapshot_timestamp"
  = Some (VDatetime (Aware (s_snapshot_timestamp r))).
Proof. reflexivity. Qed.

(** ** The decision *)

Lemma get_last_snapshot_select B db profile_id :
  get_last_snapshot B db profile_id = row_dict <$> select_last_snapshot B db profile_id.
Proof. reflexivity. Qed.

(** The outcomes of a decision, by what the query and the detector
    answer.  With a baseline and no change reported, line 116 subtracts the
    aware [snapshot_timestamp] of the row from the naive [datetime.now()]:
    a [TypeError], whatever the clock reads. *)
Lemma should_create_snapshot_cases B thr db now profile_id current_data :
  should_create_snapshot B thr db now profile_id current_data
  = match select_last_snapshot B db profile_id with
    | None => Ok (true, {[ "reason" := AVal (VStr "first_snapshot") ]})
    | Some last =>
        match calculate_changes thr current_data (row_dict last) with
        | Raise e => Raise e
        | Ok (true, changes) =>
            Ok (true, {[ "reason" := AVal (VStr "metrics_changed");
                         "changes" := AChanges changes;
                         "previous_snapshot_id" := AVal (VInt (s_id last)) ]})
        | Ok (false, _) => Raise TypeError
        end
    end.
Proof.
  unfold should_create_snapshot. rewrite get_last_snapshot_select.
  destruct (select_last_snapshot B db profile_id) as [last|]; [|done]. simpl.
  destruct (calculate_changes _ _ _) as [[[] changes]|e]; simpl; [| |done].
  - unfold getitem. by rewrite row_dict_id.
  - unfold getitem. by rewrite row_dict_timestamp.
Qed.

(** C4. With a baseline and no metric reported changed, the decision
    answers neither [periodic_snapshot] nor [no_significant_changes]: it
    raises [TypeError] at line 116, whatever the age of the baseline, seven
    days and more than seven days included. *)
Theorem should_create_snapshot_no_change_raises
    (B : backend) (change_threshold : float) (db : database) (now profile_id : Z)
    (current_data : gmap string value) (last : snapshot_row)
    (changes : gmap string change) :
  select_last_snapshot B db profile_id = Some last ->
  calculate_changes change_threshold current_data (row_dict last)
    = Ok (false, changes) ->
  should_create_snapshot B change_threshold db now profile_id current_data
    = Raise TypeError.
Proof.
  intros Hlast Hcalc. by rewrite should_create_snapshot_cases, Hlast, Hcalc.
Qed.

(** ** Persisting a snapshot *)

Lemma reason_flag_spec (reason : avalue) :
  reason_flag reason = true <-> reason ≠ AVal (VStr "no_significant_changes").
Proof.
  destruct reason as [v|c]; [|done].
  destruct v as [| | |s| |]; simpl; try done.
  destruct (String.eqb_spec s "no_significant_changes") as [->|Hne]; simpl.
  - split; [discriminate | congruence].
  - split; [|done]. intros _ [= ->]. done.
Qed.

(** What a successful [create_snapshot] leaves behind: one new row, the
    last of the table, built from the arguments of the call. *)
Lemma create_snapshot_Ok B db now profile_id profile_data change_analysis id db' :
  create_snapshot B db now profile_id profile_data change_analysis = (Ok id, db') ->
  exists reason row,
    change_analysis !! "reason" = Some reason /\
    profile_snapshots db' = profile_snapshots db ++ [row] /\
    profiles db' = profiles db /\
    s_id row = id /\
    s_snapshot_timestamp row = now /\
    s_change_detected row = reason_flag reason /\
    to_int4 B (VInt profile_id) = Ok (s_profile_id row) /\
    to_int4 B (default VNone (profile_data !! "followers_count"))
      = Ok (s_followers_count row) /\
    to_int4 B (match change_analysis !! "previous_snapshot_id" with
               | Some (AVal v) => v
               | _ => VNone
               end) = Ok (s_previous_snapshot_id row).
Proof.
  unfold create_snapshot, getitem. intros H.
  destruct (change_analysis !! "reason") as [reason|]; [|discriminate].
  exists reason.
  assert (insert_snapshot B db now (VInt profile_id)
            (default VNone (profile_data !! "followers_count"))
            (default VNone (profile_data !! "following_count"))
            (default VNone (profile_data !! "likes_count"))
            (default VNone (profile_data !! "video_count"))
            (reason_flag reason)
            (match change_analysis !! "previous_snapshot_id" with
             | Some (AVal v) => v
             | _ => VNone
             end)
            (default VNone (profile_data !! "raw_data")) = (Ok id, db')) as Hins.
  { destruct (change_analysis !! "previous_snapshot_id") as [[v|c]|];
      [exact H | discriminate | exact H]. }
  clear H. unfold insert_snapshot in Hins.
  destruct (to_int4 B (VInt profile_id)) as [p|]; [|discriminate]. simpl in Hins.
  destruct (to_int4 B (default VNone (profile_data !! "followers_count")))
    as [f|]; [|discriminate]. simpl in Hins.
  destruct (to_int4 B (default VNone (profile_data !! "following_count")))
    as [g|]; [|discriminate]. simpl in Hins.
  destruct (to_int4 B (default VNone (profile_data !! "likes_count")))
    as [l|]; [|discriminate]. simpl in Hins.
  destruct (to_int4 B (default VNone (profile_data !! "video_count")))
    as [v|]; [|discriminate]. simpl in Hins.
  destruct (to_int4 B _) as [prev|]; [|discriminate]. simpl in Hins.
  destruct (to_jsonb B _) as [raw|]; [|discriminate]. simpl in Hins.
  destruct (nextval _) as [n|]; [|discriminate]. simpl in Hins.
  destruct (_ && _); [|discriminate].
  injection Hins as <- <-. eexists. simpl. split_and!; reflexivity.
Qed.

(** C6. The [change_detected] column of the row that [create_snapshot]
    persists is [change_analysis['reason'] != 'no_significant_changes']:
    true for every other reason, [first_snapshot] and [periodic_snapshot]
    among them, and false for [no_significant_changes] alone. *)
Theorem create_snapshot_change_detected
    (B : backend) (db : database) (now profile_id : Z)
    (profile_data : gmap string value) (change_analysis : gmap string avalue)
    (id : Z) (db' : database) :
  create_snapshot B db now profile_id profile_data change_analysis = (Ok id, db') ->
  exists reason row,
    change_analysis !! "reason" = Some reason /\
    profile_snapshots db' = profile_snapshots db ++ [row] /\
    s_id row = id /\
    (s_change_detected row = true
       <-> reason ≠ AVal (VStr "no_significant_changes")) /\
    (reason = AVal (VStr "first_snapshot") -> s_change_detected row = true) /\
    (reason = AVal (VStr "periodic_snapshot") -> s_change_detected row = true) /\
    (reason = AVal (VStr "no_significant_changes") -> s_change_detected row = false).
Proof.
  intros H. apply create_snapshot_Ok in H
    as (reason & row & Hr & Hrows & _ & Hid & _ & Hflag & _).
  exists reason, row. rewrite Hflag. split_and!; try done.
  - apply reason_flag_spec.
  - by intros ->.
  - by intros ->.
  - by intros ->.
Qed.

(** ** The latest snapshot *)

Section LatestSnapshot.

Variable B : backend.
Hypothesis B_ok : backend_ok B.
Variables (db : database) (profile_id : Z).

Local Abbreviation of_profile :=
  (filter (fun r => s_profile_id r = Some profile_id) (profile_snapshots db)).

Lemma select_last_snapshot_None :
  select_last_snapshot B db profile_id = None <->
  forall r, r ∈ profile_snapshots db -> s_profile_id r ≠ Some profile_id.
Proof.
  unfold select_last_snapshot.
  pose proof (order_by_perm B B_ok of_profile) as Hperm.
  destruct (order_by_timestamp_desc B of_profile) as [|r0 rest] eqn:Hsort; simpl.
  - apply Permutation_nil_l in Hperm. split; [|done].
    intros _ r Hin Hp.
    assert (r ∈ of_profile) as Hr by (apply list_elem_of_filter; done).
    rewrite <- Hperm in Hr. by apply elem_of_nil in Hr.
  - split; [done|]. intros Hnone.
    assert (r0 ∈ of_profile) as Hr by (rewrite <- Hperm; left).
    apply list_elem_of_filter in Hr as [Hp Hin]. by destruct (Hnone r0 Hin).
Qed.

Lemma select_last_snapshot_Some r :
  select_last_snapshot B db profile_id = Some r ->
  r ∈ profile_snapshots db /\
  s_profile_id r = Some profile_id /\
  forall r', r' ∈ profile_snapshots db -> s_profile_id r' = Some profile_id ->
             s_snapshot_timestamp r' <= s_snapshot_timestamp r.
Proof.
  unfold select_last_snapshot.
  pose proof (order_by_perm B B_ok of_profile) as Hperm.
  pose proof (order_by_sorted B B_ok of_profile) as Hsorted.
  destruct (order_by_timestamp_desc B of_profile) as [|r0 rest] eqn:Hsort;
    simpl; [done|]. intros [= ->].
  assert (r ∈ of_profile) as Hr by (rewrite <- Hperm; left).
  apply list_elem_of_filter in Hr as [Hp Hin]. split_and!; [done|done|].
  intros r' Hin' Hp'.
  assert (r' ∈ r :: rest) as Hr'
    by (rewrite Hperm; apply list_elem_of_filter; done).
  apply StronglySorted_cons in Hsorted as [Hall _].
  apply elem_of_cons in Hr' as [->|Hrest]; [lia|].
  rewrite Forall_forall in Hall. exact (Hall r' Hrest).
Qed.

Lemma select_last_snapshot_strict r :
  r ∈ profile_snapshots db ->
  s_profile_id r = Some profile_id ->
  (forall r', r' ∈ profile_snapshots db -> s_profile_id r' = Some profile_id ->
              s_snapshot_timestamp r <= s_snapshot_timestamp r' -> r' = r) ->
  select_last_snapshot B db profile_id = Some r.
Proof.
  intros Hin Hp Hstrict.
  destruct (select_last_snapshot B db profile_id) as [r0|] eqn:Hsel.
  - apply select_last_snapshot_Some in Hsel as (Hin0 & Hp0 & Hmax).
    f_equal. apply Hstrict; auto.
  - rewrite select_last_snapshot_None in Hsel. by destruct (Hsel r Hin).
Qed.

End LatestSnapshot.

(** C9, amended. [get_last_snapshot] returns nothing exactly when the
    profile has no snapshot; what it returns is a snapshot of the profile
    that no snapshot of the profile is newer than; and a snapshot that is
    strictly newer than every other one of the profile is the one returned.
    Among several snapshots with the same, newest timestamp the query names
    no order. *)
Theorem get_last_snapshot_newest
    (B : backend) (db : database) (profile_id : Z) :
  backend_ok B ->
  (get_last_snapshot B db profile_id = None <->
   forall r, r ∈ profile_snapshots db -> s_profile_id r ≠ Some profile_id) /\
  (forall d, get_last_snapshot B db profile_id = Some d ->
     exists r, d = row_dict r /\ r ∈ profile_snapshots db /\
       s_profile_id r = Some profile_id /\
       forall r', r' ∈ profile_snapshots db ->
                  s_profile_id r' = Some profile_id ->
                  s_snapshot_timestamp r' <= s_snapshot_timestamp r) /\
  (forall r, r ∈ profile_snapshots db -> s_profile_id r = Some profile_id ->
     (forall r', r' ∈ profile_snapshots db ->
                 s_profile_id r' = Some profile_id ->
                 s_snapshot_timestamp r <= s_snapshot_timestamp r' -> r' = r) ->
     get_last_snapshot B db profile_id = Some (row_dict r)).
Proof.
  intros B_ok. rewrite get_last_snapshot_select. split_and!.
  - rewrite <- (select_last_snapshot_None B B_ok).
    destruct (select_last_snapshot B db profile_id); simpl; split; done.
  - intros d Hd.
    destruct (select_last_snapshot B db profile_id) as [r|] eqn:Hsel;
      [|discriminate].
    injection Hd as <-. exists r. split; [done|].
    by apply (select_last_snapshot_Some B B_ok).
  - intros r Hin Hp Hstrict.
    by rewrite (select_last_snapshot_strict B B_ok db profile_id r).
Qed.

(** ** Repeating the decision *)

(** The decision reads the snapshots and nothing else of the database. *)
Lemma select_last_snapshot_rows B db1 db2 profile_id :
  profile_snapshots db2 = profile_snapshots db1 ->
  select_last_snapshot B db2 profile_id = select_last_snapshot B db1 profile_id.
Proof. unfold select_last_snapshot. by intros ->. Qed.

(** [get_or_create_profile] writes no snapshot. *)
Lemma get_or_create_profile_rows B concurrent now username profile_data db :
  profile_snapshots
    (snd (get_or_create_profile B concurrent now username profile_data db))
  = profile_snapshots (concurrent db).
Proof.
  unfold get_or_create_profile.
  destruct (select_profile_id db (lower username)); [done|].
  unfold insert_profile. destruct (profile_values _ _ _ _ _ _ _ _) as [t|]; [|done].
  destruct t as [[[[[[[u|] p] d] b] a] v] i]; [|done].
  by destruct (_ || _).
Qed.

(** C10, amended. Two calls of [should_create_snapshot] for the same
    profile and observation, between which no snapshot was written, give the
    same result, whatever their clocks read and whichever way the server
    lists rows of equal timestamps at either call, provided the profile has
    at most one newest snapshot. *)
Theorem should_create_snapshot_repeatable
    (B1 B2 : backend) (change_threshold : float) (db1 db2 : database)
    (now1 now2 profile_id : Z) (current_data : gmap string value) :
  backend_ok B1 -> backend_ok B2 ->
  profile_snapshots db2 = profile_snapshots db1 ->
  (forall r r', r ∈ profile_snapshots db1 -> r' ∈ profile_snapshots db1 ->
     s_profile_id r = Some profile_id -> s_profile_id r' = Some profile_id ->
     (forall q, q ∈ profile_snapshots db1 -> s_profile_id q = Some profile_id ->
        s_snapshot_timestamp q <= s_snapshot_timestamp r) ->
     (forall q, q ∈ profile_snapshots db1 -> s_profile_id q = Some profile_id ->
        s_snapshot_timestamp q <= s_snapshot_timestamp r') ->
     r = r') ->
  should_create_snapshot B2 change_threshold db2 now2 profile_id current_data
  = should_create_snapshot B1 change_threshold db1 now1 profile_id current_data.
Proof.
  intros B1_ok B2_ok Hrows Hunique. rewrite !should_create_snapshot_cases.
  assert (select_last_snapshot B2 db2 profile_id
          = select_last_snapshot B1 db1 profile_id) as ->; [|done].
  destruct (select_last_snapshot B1 db1 profile_id) as [l1|] eqn:H1;
    destruct (select_last_snapshot B2 db2 profile_id) as [l2|] eqn:H2; [| | |done].
  - apply (select_last_snapshot_Some B1 B1_ok) in H1 as (Hin1 & Hp1 & Hmax1).
    apply (select_last_snapshot_Some B2 B2_ok) in H2 as (Hin2 & Hp2 & Hmax2).
    rewrite Hrows in Hin2, Hmax2. f_equal. by apply Hunique.
  - apply (select_last_snapshot_Some B1 B1_ok) in H1 as (Hin1 & Hp1 & _).
    rewrite (select_last_snapshot_None B2 B2_ok), Hrows in H2. by destruct (H2 l1 Hin1).
  - apply (select_last_snapshot_Some B2 B2_ok) in H2 as (Hin2 & Hp2 & _).
    rewrite (select_last_snapshot_None B1 B1_ok) in H1.
    rewrite Hrows in Hin2. by destruct (H1 l2 Hin2).
Qed.

(** ** No validation before the detector *)

(** The detector reads its two dictionaries only at the tracked metrics,
    and an absent metric as 0. *)
Lemma calculate_metric_ext thr cur cur' last last' acc metric :
  default (VInt 0) (cur !! metric) = default (VInt 0) (cur' !! metric) ->
  default (VInt 0) (last !! metric) = default (VInt 0) (last' !! metric) ->
  calculate_metric thr cur last acc metric = calculate_metric thr cur' last' acc metric.
Proof. unfold calculate_metric. by intros -> ->. Qed.

Lemma calculate_loop_ext thr cur cur' last last' ms : forall acc,
  Forall (fun m => default (VInt 0) (cur !! m) = default (VInt 0) (cur' !! m) /\
                   default (VInt 0) (last !! m) = default (VInt 0) (last' !! m)) ms ->
  calculate_loop thr cur last ms acc = calculate_loop thr cur' last' ms acc.
Proof.
  induction ms as [|m ms IH]; intros acc Hall; [done|].
  apply Forall_cons in Hall as [[Hc Hl] Hall]. simpl.
  rewrite (calculate_metric_ext thr cur cur' last last' acc m Hc Hl).
  destruct (calculate_metric thr cur' last' acc m); simpl; auto.
Qed.

Lemma calculate_changes_absent_is_zero thr cur last metric :
  calculate_changes thr (delete metric cur) last
  = calculate_changes thr (<[metric := VInt 0]> cur) last.
Proof.
  apply calculate_loop_ext, Forall_forall. intros m _. split; [|done].
  destruct (decide (metric = m)) as [->|Hne].
  - by rewrite lookup_delete_eq, lookup_insert_eq.
  - by rewrite lookup_delete_ne, lookup_insert_ne.
Qed.

Lemma calculate_changes_absent_baseline_is_zero thr cur last metric :
  calculate_changes thr cur (delete metric last)
  = calculate_changes thr cur (<[metric := VInt 0]> last).
Proof.
  apply calculate_loop_ext, Forall_forall. intros m _. split; [done|].
  destruct (decide (metric = m)) as [->|Hne].
  - by rewrite lookup_delete_eq, lookup_insert_eq.
  - by rewrite lookup_delete_ne, lookup_insert_ne.
Qed.

Lemma calculate_changes_raises thr cur last e :
  calculate_changes thr cur last = Raise e -> e = TypeError \/ e = OverflowError.
Proof. apply calculate_loop_raises. Qed.

(** C7, amended. No observation is refused before the detector: when the
    query answers a baseline, [should_create_snapshot] hands the observation
    as it is to [calculate_changes] and answers from its result.  What the
    detector raises, a [TypeError] or an [OverflowError] and nothing else,
    the decision raises; a reported change is the decision [metrics_changed]
    with the detector's deltas; no reported change is the [TypeError] of line
    116; and an absent metric is decided as the value 0 would be. *)
Theorem should_create_snapshot_unvalidated
    (B : backend) (change_threshold : float) (db : database) (now profile_id : Z)
    (current_data : gmap string value) (last : snapshot_row) :
  select_last_snapshot B db profile_id = Some last ->
  (forall e,
     calculate_changes change_threshold current_data (row_dict last) = Raise e ->
     (e = TypeError \/ e = OverflowError) /\
     should_create_snapshot B change_threshold db now profile_id current_data
       = Raise e) /\
  (forall changes,
     calculate_changes change_threshold current_data (row_dict last)
       = Ok (true, changes) ->
     should_create_snapshot B change_threshold db now profile_id current_data
       = Ok (true, {[ "reason" := AVal (VStr "metrics_changed");
                      "changes" := AChanges changes;
                      "previous_snapshot_id" := AVal (VInt (s_id last)) ]})) /\
  (forall changes,
     calculate_changes change_threshold current_data (row_dict last)
       = Ok (false, changes) ->
     should_create_snapshot B change_threshold db now profile_id current_data
       = Raise TypeError) /\
  (forall metric,
     should_create_snapshot B change_threshold db now profile_id
       (delete metric current_data)
     = should_create_snapshot B change_threshold db now profile_id
         (<[metric := VInt 0]> current_data)).
Proof.
  intros Hlast. split_and!.
  - intros e He. split; [by apply calculate_changes_raises in He|].
    by rewrite should_create_snapshot_cases, Hlast, He.
  - intros changes Hc. by rewrite should_create_snapshot_cases, Hlast, Hc.
  - intros changes Hc. by rewrite should_create_snapshot_cases, Hlast, Hc.
  - intros metric.
    by rewrite !should_create_snapshot_cases, Hlast, calculate_changes_absent_is_zero.
Qed.

(** ** A collision on insert *)

(** The [SELECT] of [get_or_create_profile] finds a row exactly when the
    key is taken. *)
Lemma select_profile_id_None db username :
  select_profile_id db username = None <-> username_taken db username = false.
Proof.
  unfold select_profile_id, username_taken.
  rewrite bool_decide_eq_false, Exists_exists.
  destruct (filter _ (profiles db)) as [|r rest] eqn:Hf; simpl.
  - split; [|done]. intros _ (r & Hin & Hu).
    assert (r ∈ filter (fun r => p_username r = username) (profiles db)) as Hr
      by (apply list_elem_of_filter; done).
    rewrite Hf in Hr. by apply elem_of_nil in Hr.
  - split; [done|]. intros Hnone. destruct Hnone.
    assert (r ∈ filter (fun r => p_username r = username) (profiles db)) as Hr
      by (rewrite Hf; left).
    apply list_elem_of_filter in Hr as [Hu Hin]. exists r.
    done.
Qed.

(** C5, amended. When the key that the [SELECT] of
    [get_or_create_profile] did not find is taken by the time of its
    [INSERT], the statement is refused and the exception reaches the
    caller: the conflict of the [UNIQUE] constraint, unless a value of the
    statement was refused before the constraint was checked.  The existing
    row is not read again and no id is returned; no row is added, so the
    key stays unique. *)
Theorem get_or_create_profile_collision
    (B : backend) (concurrent : database -> database) (now : Z)
    (username : string) (profile_data : gmap string value) (db : database) :
  backend_ok B ->
  select_profile_id db (lower username) = None ->
  username_taken (concurrent db) (lower username) = true ->
  exists e db',
    get_or_create_profile B concurrent now username profile_data db
      = (Raise e, db') /\
    profiles db' = profiles (concurrent db) /\
    profile_snapshots db' = profile_snapshots (concurrent db) /\
    (e = UniqueViolation \/
     profile_values B (concurrent db)
       (VStr (lower username))
       (default VNone (profile_data !! "profile_id"))
       (default VNone (profile_data !! "display_name"))
       (default VNone (profile_data !! "bio"))
       (default VNone (profile_data !! "avatar_url"))
       (default (VBool false) (profile_data !! "verified")) = Raise e).
Proof.
  intros B_ok Hsel Htaken. unfold get_or_create_profile. rewrite Hsel.
  unfold insert_profile.
  destruct (profile_values _ _ _ _ _ _ _ _) as [t|e] eqn:Hvals.
  - destruct t as [[[[[[u p] d] b] a] v] i].
    assert (u = Some (lower username)) as ->.
    { unfold profile_values in Hvals. rewrite (varchar_str B B_ok) in Hvals.
      destruct (_ <=? _)%nat; [|discriminate]. simpl in Hvals.
      repeat (bind_inv Hvals). by injection Hvals as <- _ _ _ _ _ _. }
    rewrite Htaken. simpl. eexists _, _. split_and!; try reflexivity. by left.
  - eexists _, _. split_and!; try reflexivity. by right.
Qed.

(** ** The paths of the decision that keep the chain *)

(** A profile without a snapshot gets the decision [first_snapshot],
    whatever the observation and the clock. *)
Theorem should_create_snapshot_first
    (B : backend) (change_threshold : float) (db : database) (now profile_id : Z)
    (current_data : gmap string value) :
  backend_ok B ->
  (forall r, r ∈ profile_snapshots db -> s_profile_id r ≠ Some profile_id) ->
  should_create_snapshot B change_threshold db now profile_id current_data
    = Ok (true, {[ "reason" := AVal (VStr "first_snapshot") ]}).
Proof.
  intros B_ok Hnone. unfold should_create_snapshot.
  rewrite get_last_snapshot_select.
  by rewrite (proj2 (select_last_snapshot_None B B_ok db profile_id) Hnone).
Qed.

(** A snapshot persisted from the decision [metrics_changed] refers back
    to the baseline of that decision, a newest snapshot of the profile. *)
Theorem metrics_changed_back_reference
    (B : backend) (change_threshold : float) (db : database)
    (t_decide t_create profile_id : Z) (current_data : gmap string value)
    (last : snapshot_row) (changes : gmap string change)
    (change_analysis : gmap string avalue) (id : Z) (db' : database) :
  backend_ok B ->
  select_last_snapshot B db profile_id = Some last ->
  calculate_changes change_threshold current_data (row_dict last)
    = Ok (true, changes) ->
  should_create_snapshot B change_threshold db t_decide profile_id current_data
    = Ok (true, change_analysis) ->
  create_snapshot B db t_create profile_id current_data change_analysis
    = (Ok id, db') ->
  exists row,
    profile_snapshots db' = profile_snapshots db ++ [row] /\
    s_id row = id /\
    s_profile_id row = Some profile_id /\
    s_previous_snapshot_id row = Some (s_id last) /\
    s_change_detected row = true /\
    last ∈ profile_snapshots db /\
    s_profile_id last = Some profile_id /\
    forall r, r ∈ profile_snapshots db -> s_profile_id r = Some profile_id ->
              s_snapshot_timestamp r <= s_snapshot_timestamp last.
Proof.
  intros B_ok Hlast Hcalc Hscs Hcreate.
  unfold should_create_snapshot in Hscs.
  rewrite get_last_snapshot_select, Hlast in Hscs. simpl in Hscs.
  rewrite Hcalc in Hscs. simpl in Hscs.
  unfold getitem in Hscs. rewrite row_dict_id in Hscs. simpl in Hscs.
  injection Hscs as <-.
  apply create_snapshot_Ok in Hcreate
    as (reason & row & Hr & Hrows & _ & Hid & _ & Hflag & Hp & _ & Hprev).
  exists row.
  rewrite (int4_int B B_ok) in Hp. destruct (in_int4 profile_id); [|discriminate].
  injection Hp as <-.
  assert (reason = AVal (VStr "metrics_changed")) as ->
    by (vm_compute in Hr; by injection Hr as <-).
  replace (({[ "reason" := AVal (VStr "metrics_changed");
               "changes" := AChanges changes;
               "previous_snapshot_id" := AVal (VInt (s_id last)) ]}
            : gmap string avalue) !! "previous_snapshot_id")
    with (Some (AVal (VInt (s_id last)))) in Hprev by reflexivity.
  rewrite (int4_int B B_ok) in Hprev.
  destruct (in_int4 (s_id last)); [|discriminate]. injection Hprev as <-.
  destruct (select_last_snapshot_Some B B_ok db profile_id last Hlast)
    as (Hin & Hpid & Hmax).
  split_and!; done.
Qed.

(** An observation whose metrics equal the baseline's. *)
Lemma calculate_metric_unchanged thr cur last acc metric v :
  ge (S754_zero false) (times_100 thr) = false ->
  0 <= v ->
  default (VInt 0) (last !! metric) = VInt v ->
  default (VInt 0) (cur !! metric) = VInt v ->
  calculate_metric thr cur last acc metric = Ok acc.
Proof.
  intros Hthr Hv Hlast Hcur. unfold calculate_metric. rewrite Hlast, Hcur.
  unfold eq_zero, gt_zero, sub, int_true_divide. simpl.
  destruct v as [|p|p]; [done| |lia]. simpl. rewrite Z.sub_diag. simpl.
  unfold abs. simpl. by rewrite Hthr.
Qed.

Lemma calculate_loop_unchanged thr cur last ms : forall acc,
  ge (S754_zero false) (times_100 thr) = false ->
  Forall (fun m => exists v, 0 <= v /\
            default (VInt 0) (last !! m) = VInt v /\
            default (VInt 0) (cur !! m) = VInt v) ms ->
  calculate_loop thr cur last ms acc = Ok acc.
Proof.
  induction ms as [|m ms IH]; intros acc Hthr Hall; [done|].
  apply Forall_cons in Hall as [(v & Hv & Hl & Hc) Hall]. simpl.
  rewrite (calculate_metric_unchanged thr cur last acc m v Hthr Hv Hl Hc).
  simpl. by apply IH.
Qed.

(** With a positive threshold, an observation whose four metrics
    equal the baseline's, none of them negative, is reported unchanged by
    the detector, with no delta; and the decision for it, whatever the clock
    reads, is not [no_significant_changes] but the [TypeError] of line
    116. *)
Theorem should_create_snapshot_unchanged
    (B : backend) (change_threshold : float) (db : database) (now profile_id : Z)
    (current_data : gmap string value) (last : snapshot_row) :
  ge (S754_zero false) (times_100 change_threshold) = false ->
  select_last_snapshot B db profile_id = Some last ->
  (forall m, m ∈ metrics -> exists v, 0 <= v /\
     default (VInt 0) (row_dict last !! m) = VInt v /\
     default (VInt 0) (current_data !! m) = VInt v) ->
  calculate_changes change_threshold current_data (row_dict last) = Ok (false, ∅) /\
  should_create_snapshot B change_threshold db now profile_id current_data
    = Raise TypeError.
Proof.
  intros Hthr Hlast Hsame.
  assert (calculate_changes change_threshold current_data (row_dict last)
          = Ok (false, ∅)) as Hcalc.
  { apply calculate_loop_unchanged; [done|]. by apply Forall_forall. }
  split; [done|]. by rewrite should_create_snapshot_cases, Hlast, Hcalc.
Qed.

(** The detector reads a metric that is absent, from the observation or
    from the baseline, as it reads the value 0. *)
Theorem calculate_changes_absent_metric
    (change_threshold : float) (current_data last_snapshot : gmap string value)
    (metric : string) :
  calculate_changes change_threshold (delete metric current_data) last_snapshot
  = calculate_changes change_threshold (<[metric := VInt 0]> current_data)
      last_snapshot /\
  calculate_changes change_threshold current_data (delete metric last_snapshot)
  = calculate_changes change_threshold current_data
      (<[metric := VInt 0]> last_snapshot).
Proof.
  split.
  - apply calculate_changes_absent_is_zero.
  - apply calculate_changes_absent_baseline_is_zero.
Qed.

(** ** The properties on sample runs *)

Lemma calculate_changes_positive_baseline_witness :
  calculate_changes lit_0_01 (obs 1010 100 5000 20) (obs 1000 100 5000 20)
    = Ok (true, {[ "followers_count" :=
                     {| old_value := VInt 1000; new_value := VInt 1010;
                        absolute_change := VInt 10;
                        percentage_change := lit_1 |} ]}) /\
  exists quotient,
    int_true_divide (1010 - 1000) 1000 = Ok quotient /\
    ge (abs (times_100 quotient)) (times_100 lit_0_01) = true /\
    abs (times_100 quotient) = times_100 lit_0_01.
Proof.
  assert (calculate_changes lit_0_01 (obs 1010 100 5000 20) (obs 1000 100 5000 20)
    = Ok (true, {[ "followers_count" :=
                     {| old_value := VInt 1000; new_value := VInt 1010;
                        absolute_change := VInt 10;
                        percentage_change := lit_1 |} ]})) as H
    by (vm_compute; reflexivity).
  split; [exact H|].
  destruct (calculate_changes_positive_baseline lit_0_01
              (obs 1010 100 5000 20) (obs 1000 100 5000 20)
              "followers_count" 1000 1010 true _
              ltac:(unfold metrics; set_solver) eq_refl ltac:(lia) eq_refl H)
    as (q & Hq & _ & _ & _ & Hincl).
  exists q. split; [exact Hq|].
  assert (abs (times_100 q) = times_100 lit_0_01) as Heq.
  { vm_compute in Hq. injection Hq as <-. vm_compute. reflexivity. }
  split; [|exact Heq]. apply Hincl; [exact Heq|]. vm_compute. discriminate.
Defined.

Lemma calculate_changes_zero_baseline_witness :
  calculate_changes lit_0_01 (obs 1000 100 50 20) (obs 1000 100 0 20)
    = Ok (true, {[ "likes_count" :=
                     {| old_value := VInt 0; new_value := VInt 50;
                        absolute_change := VInt 50;
                        percentage_change := lit_100 |} ]}) /\
  calculate_changes lit_0_01 (obs 1000 100 0 20) (obs 1000 100 0 20)
    = Ok (false, ∅) /\
  (∅ : gmap string change) !! "likes_count" = None.
Proof.
  assert (calculate_changes lit_0_01 (obs 1000 100 50 20) (obs 1000 100 0 20)
    = Ok (true, {[ "likes_count" :=
                     {| old_value := VInt 0; new_value := VInt 50;
                        absolute_change := VInt 50;
                        percentage_change := lit_100 |} ]})) as H
    by (vm_compute; reflexivity).
  assert (calculate_changes lit_0_01 (obs 1000 100 0 20) (obs 1000 100 0 20)
    = Ok (false, ∅)) as H0 by (vm_compute; reflexivity).
  split_and!; [exact H | exact H0 |].
  destruct (calculate_changes_zero_baseline lit_0_01
              (obs 1000 100 0 20) (obs 1000 100 0 20)
              "likes_count" 0 false ∅
              ltac:(unfold metrics; set_solver) eq_refl eq_refl ltac:(lia) H0)
    as [_ Hzero].
  exact (proj1 (Hzero eq_refl)).
Defined.

Lemma should_create_snapshot_no_change_raises_witness :
  should_create_snapshot reference_backend lit_0_01 tracked (8 * one_day) 1
    (obs 1005 100 5000 20) = Raise TypeError /\
  should_create_snapshot reference_backend lit_0_01 tracked (7 * one_day) 1
    (obs 1005 100 5000 20) = Raise TypeError.
Proof.
  assert (select_last_snapshot reference_backend tracked 1 = Some first_row)
    as Hsel by (vm_compute; reflexivity).
  assert (calculate_changes lit_0_01 (obs 1005 100 5000 20) (row_dict first_row)
          = Ok (false, ∅)) as Hcalc by (vm_compute; reflexivity).
  split.
  - exact (should_create_snapshot_no_change_raises reference_backend lit_0_01
             tracked (8 * one_day) 1 (obs 1005 100 5000 20) first_row ∅ Hsel Hcalc).
  - exact (should_create_snapshot_no_change_raises reference_backend lit_0_01
             tracked (7 * one_day) 1 (obs 1005 100 5000 20) first_row ∅ Hsel Hcalc).
Defined.

Lemma create_snapshot_change_detected_witness :
  exists reason row,
    periodic_analysis !! "reason" = Some reason /\
    profile_snapshots
      (snd (create_snapshot reference_backend tracked (8 * one_day) 1
              (obs 1000 100 5000 20) periodic_analysis))
      = profile_snapshots tracked ++ [row] /\
    s_id row = 2 /\
    reason = AVal (VStr "periodic_snapshot") /\
    s_change_detected row = true.
Proof.
  destruct (create_snapshot_change_detected reference_backend tracked
              (8 * one_day) 1 (obs 1000 100 5000 20) periodic_analysis 2
              (snd (create_snapshot reference_backend tracked (8 * one_day) 1
                      (obs 1000 100 5000 20) periodic_analysis)))
    as (reason & row & Hr & Hrows & Hid & _ & _ & Hperiodic & _).
  { vm_compute. reflexivity. }
  exists reason, row.
  assert (reason = AVal (VStr "periodic_snapshot")) as Hreason.
  { vm_compute in Hr. by injection Hr as <-. }
  split_and!; [exact Hr | exact Hrows | exact Hid | exact Hreason |
               exact (Hperiodic Hreason)].
Defined.

(** C5 as the specification states it fails: another session registers the key between the
    [SELECT] and the [INSERT]; the call raises [UniqueViolation] and
    returns no id. *)
Lemma get_or_create_profile_collision_raises :
  select_profile_id Db.empty (lower "tiktok") = None /\
  username_taken (other_session Db.empty) (lower "tiktok") = true /\
  fst (get_or_create_profile reference_backend other_session 7 "tiktok" ∅ Db.empty)
    = Raise UniqueViolation /\
  p_username <$>
    profiles (snd (get_or_create_profile reference_backend other_session 7
                     "tiktok" ∅ Db.empty)) = ["tiktok"].
Proof. vm_compute. split_and!; reflexivity. Qed.

Lemma get_or_create_profile_collision_witness :
  exists e db',
    get_or_create_profile reference_backend other_session 7 "tiktok" ∅ Db.empty
      = (Raise e, db') /\
    profiles db' = profiles (other_session Db.empty).
Proof.
  destruct (get_or_create_profile_collision reference_backend other_session 7
              "tiktok" ∅ Db.empty reference_backend_ok eq_refl eq_refl)
    as (e & db' & Hcall & Hrows & _ & _).
  exists e, db'. split; [exact Hcall | exact Hrows].
Defined.

(** C7 as the specification states it fails: an observation with a negative metric and three
    metrics missing is not refused; the detector is run on it and its
    deltas are the decision. *)
Lemma should_create_snapshot_accepts_invalid :
  should_create_snapshot reference_backend lit_0_01 tracked 0 1
    {[ "followers_count" := VInt (-5) ]}
  = Ok (true,
        {[ "reason" := AVal (VStr "metrics_changed");
           "changes" := AChanges
             {[ "followers_count" :=
                  {| old_value := VInt 1000; new_value := VInt (-5);
                     absolute_change := VInt (-1005);
                     percentage_change := lit_minus_100_5 |};
                "following_count" :=
                  {| old_value := VInt 100; new_value := VInt 0;
                     absolute_change := VInt (-100);
                     percentage_change := lit_minus_100 |};
                "likes_count" :=
                  {| old_value := VInt 5000; new_value := VInt 0;
                     absolute_change := VInt (-5000);
                     percentage_change := lit_minus_100 |};
                "video_count" :=
                  {| old_value := VInt 20; new_value := VInt 0;
                     absolute_change := VInt (-20);
                     percentage_change := lit_minus_100 |} ]};
           "previous_snapshot_id" := AVal (VInt 1) ]}).
Proof. vm_compute. reflexivity. Qed.

Lemma should_create_snapshot_unvalidated_witness :
  should_create_snapshot reference_backend lit_0_01 tracked 0 1
    (delete "followers_count" (obs (-5) 100 5000 20))
  = should_create_snapshot reference_backend lit_0_01 tracked 0 1
      (<["followers_count" := VInt 0]> (obs (-5) 100 5000 20)) /\
  should_create_snapshot reference_backend lit_0_01 tracked 0 1
    (obs 1000 100 5000 20) = Raise TypeError /\
  should_create_snapshot reference_backend lit_0_01 tracked 0 1
    {[ "followers_count" := VStr "many" ]} = Raise TypeError.
Proof.
  assert (select_last_snapshot reference_backend tracked 1 = Some first_row)
    as Hsel by (vm_compute; reflexivity).
  split_and!.
  - destruct (should_create_snapshot_unvalidated reference_backend lit_0_01
                tracked 0 1 (obs (-5) 100 5000 20) first_row Hsel)
      as (_ & _ & _ & Habsent).
    exact (Habsent "followers_count").
  - destruct (should_create_snapshot_unvalidated reference_backend lit_0_01
                tracked 0 1 (obs 1000 100 5000 20) first_row Hsel)
      as (_ & _ & Hsame & _).
    apply (Hsame ∅). vm_compute. reflexivity.
  - destruct (should_create_snapshot_unvalidated reference_backend lit_0_01
                tracked 0 1 {[ "followers_count" := VStr "many" ]} first_row Hsel)
      as (Hraise & _).
    apply (Hraise TypeError). vm_compute. reflexivity.
Defined.

(** C9 as the specification states it fails: of two snapshots of one
    profile with the same timestamp, a server that sorts the rows stably
    returns the one inserted first; and a server that lists equal
    timestamps the other way round returns the other one. *)
Lemma get_last_snapshot_tie_earlier :
  profile_snapshots tied = [first_row; second_row] /\
  s_snapshot_timestamp first_row = s_snapshot_timestamp second_row /\
  get_last_snapshot reference_backend tied 1 = Some (row_dict first_row) /\
  get_last_snapshot reversing_backend tied 1 = Some (row_dict second_row) /\
  backend_ok reference_backend /\ backend_ok reversing_backend.
Proof.
  split_and!; [vm_compute; reflexivity | vm_compute; reflexivity
              | vm_compute; reflexivity | vm_compute; reflexivity
              | exact reference_backend_ok | exact reversing_backend_ok].
Qed.

Lemma get_last_snapshot_newest_witness :
  get_last_snapshot reference_backend archive 1
    = Some (row_dict (archive_row 2 1 2000 100 5000 20 3 (Some 1))) /\
  get_last_snapshot reversing_backend archive 1
    = Some (row_dict (archive_row 2 1 2000 100 5000 20 3 (Some 1))) /\
  get_last_snapshot reference_backend archive 2
    = Some (row_dict (archive_row 4 2 7 7 7 7 5 None)) /\
  get_last_snapshot reference_backend archive 3 = None.
Proof.
  assert (forall B, backend_ok B ->
            get_last_snapshot B archive 1
            = Some (row_dict (archive_row 2 1 2000 100 5000 20 3 (Some 1))))
    as Hnewest.
  { intros B B_ok.
    destruct (get_last_snapshot_newest B archive 1 B_ok) as (_ & _ & Hstrict).
    apply Hstrict.
    - rewrite archive_snapshots. right. left.
    - reflexivity.
    - intros r'. rewrite archive_snapshots. unfold archive_rows. intros Hin Hp Hle.
      repeat (apply elem_of_cons in Hin as [->|Hin]).
      + vm_compute in Hle. by destruct Hle.
      + reflexivity.
      + vm_compute in Hle. by destruct Hle.
      + discriminate Hp.
      + by apply elem_of_nil in Hin. }
  split_and!.
  - exact (Hnewest reference_backend reference_backend_ok).
  - exact (Hnewest reversing_backend reversing_backend_ok).
  - destruct (get_last_snapshot_newest reference_backend archive 2
                reference_backend_ok) as (_ & _ & Hstrict).
    apply Hstrict.
    + rewrite archive_snapshots. right. right. right. left.
    + reflexivity.
    + intros r'. rewrite archive_snapshots. unfold archive_rows. intros Hin Hp Hle.
      repeat (apply elem_of_cons in Hin as [->|Hin]);
        [discriminate Hp | discriminate Hp | discriminate Hp | reflexivity
        | by apply elem_of_nil in Hin].
  - apply (get_last_snapshot_newest reference_backend archive 3
             reference_backend_ok).
    intros r. rewrite archive_snapshots. unfold archive_rows. intros Hin.
    repeat (apply elem_of_cons in Hin as [->|Hin]);
      [discriminate | discriminate | discriminate | discriminate
      | by apply elem_of_nil in Hin].
Defined.

(** C10 as the specification states it fails: nothing is written between
    two calls for the same observation, the profile has two snapshots of
    one timestamp, and the server lists them one way at the first call and
    the other way at the second: the first call decides [metrics_changed]
    against snapshot 1, the second finds nothing changed against snapshot 2
    and raises. *)
Lemma should_create_snapshot_tie_dependent :
  profile_snapshots tied = [first_row; second_row] /\
  s_snapshot_timestamp first_row = s_snapshot_timestamp second_row /\
  backend_ok reference_backend /\ backend_ok reversing_backend /\
  should_create_snapshot reference_backend lit_0_01 tied one_day 1
    (obs 2000 100 5000 20)
    = Ok (true,
          {[ "reason" := AVal (VStr "metrics_changed");
             "changes" := AChanges
               {[ "followers_count" :=
                    {| old_value := VInt 1000; new_value := VInt 2000;
                       absolute_change := VInt 1000;
                       percentage_change := lit_100 |} ]};
             "previous_snapshot_id" := AVal (VInt 1) ]}) /\
  should_create_snapshot reversing_backend lit_0_01 tied one_day 1
    (obs 2000 100 5000 20)
    = Raise TypeError.
Proof.
  split_and!; [vm_compute; reflexivity | vm_compute; reflexivity
              | exact reference_backend_ok | exact reversing_backend_ok
              | vm_compute; reflexivity | vm_compute; reflexivity].
Qed.

Lemma should_create_snapshot_repeatable_witness :
  should_create_snapshot reversing_backend lit_0_01
    (snd (get_or_create_profile reference_backend id (9 * one_day) "TikTok"
            (obs 2500 100 5000 20) archive))
    (9 * one_day) 1 (obs 2500 100 5000 20)
  = should_create_snapshot reference_backend lit_0_01 archive (4 * one_day) 1
      (obs 2500 100 5000 20).
Proof.
  apply should_create_snapshot_repeatable.
  - exact reference_backend_ok.
  - exact reversing_backend_ok.
  - apply get_or_create_profile_rows.
  - intros r r'. rewrite archive_snapshots. intros Hr Hr' Hp Hp' Hmax Hmax'.
    pose proof (Hmax r' Hr' Hp') as Hle. pose proof (Hmax' r Hr Hp) as Hle'.
    clear Hmax Hmax'. unfold archive_rows in Hr, Hr'.
    repeat (apply elem_of_cons in Hr as [->|Hr]);
      repeat (apply elem_of_cons in Hr' as [->|Hr']);
      try reflexivity; try discriminate Hp; try discriminate Hp';
      try (by apply elem_of_nil in Hr); try (by apply elem_of_nil in Hr');
      vm_compute in Hle, Hle'; try (by destruct Hle); by destruct Hle'.
Defined.

(** ** Places where the code leaves the specification *)



(** C8. A first turn with an observation that lacks [followers_count]
    stores [NULL], not 0, in that column; the next decision for the profile
    then fails in the detector, which orders [None] against 0. *)
Lemma missing_metric_is_stored_as_null :
  profile_snapshots tracked_partial
    = [ {| s_id := 1; s_profile_id := Some 1;
           s_followers_count := None; s_following_count := Some 100;
           s_likes_count := Some 5000; s_video_count := Some 20;
           s_snapshot_timestamp := 0; s_change_detected := true;
           s_previous_snapshot_id := None; s_raw_data := VNone |} ] /\
  should_create_snapshot reference_backend lit_0_01 tracked_partial one_day 1
    partial_obs = Raise TypeError.
Proof. vm_compute. split; reflexivity. Qed.

Lemma should_create_snapshot_first_witness :
  should_create_snapshot reference_backend lit_0_01 Db.empty 0 1
    (obs 1000 100 5000 20)
  = Ok (true, {[ "reason" := AVal (VStr "first_snapshot") ]}).
Proof.
  apply should_create_snapshot_first; [exact reference_backend_ok|].
  intros r Hin. apply elem_of_nil in Hin. destruct Hin.
Defined.

Lemma metrics_changed_back_reference_witness :
  exists row,
    profile_snapshots tied = profile_snapshots tracked ++ [row] /\
    s_id row = 2 /\
    s_profile_id row = Some 1 /\
    s_previous_snapshot_id row = Some 1.
Proof.
  destruct (metrics_changed_back_reference reference_backend lit_0_01 tracked
              0 0 1 (obs 2000 100 5000 20) first_row
              {[ "followers_count" :=
                   {| old_value := VInt 1000; new_value := VInt 2000;
                      absolute_change := VInt 1000;
                      percentage_change := lit_100 |} ]}
              {[ "reason" := AVal (VStr "metrics_changed");
                 "changes" := AChanges
                   {[ "followers_count" :=
                        {| old_value := VInt 1000; new_value := VInt 2000;
                           absolute_change := VInt 1000;
                           percentage_change := lit_100 |} ]};
                 "previous_snapshot_id" := AVal (VInt 1) ]}
              2 tied reference_backend_ok)
    as (row & Hrows & Hid & Hp & Hprev & _).
  - vm_compute. reflexivity.
  - vm_compute. reflexivity.
  - vm_compute. reflexivity.
  - vm_compute. reflexivity.
  - exists row. split_and!; [exact Hrows | exact Hid | exact Hp | exact Hprev].
Defined.

Lemma should_create_snapshot_unchanged_witness :
  calculate_changes lit_0_01 (obs 1000 100 5000 20) (row_dict first_row)
    = Ok (false, ∅) /\
  should_create_snapshot reference_backend lit_0_01 tracked (2 * one_day) 1
    (obs 1000 100 5000 20)
  = Raise TypeError.
Proof.
  apply (should_create_snapshot_unchanged reference_backend lit_0_01 tracked
           (2 * one_day) 1 (obs 1000 100 5000 20) first_row).
  - vm_compute. reflexivity.
  - vm_compute. reflexivity.
  - intros m Hm. unfold metrics in Hm.
    repeat (apply elem_of_cons in Hm as [->|Hm]);
      [exists 1000 | exists 100 | exists 5000 | exists 20 |
       by apply elem_of_nil in Hm];
      (split; [lia | split; reflexivity]).
Defined.

(** * More of the code *)

(** ** The two [INSERT]s, case by case *)

Lemma nextval_Ok seq id : nextval seq = Ok id -> id = seq + 1 /\ seq < int4_max.
Proof.
  unfold nextval. destruct (seq <? int4_max) eqn:H; [|discriminate].
  intros [= <-]. split; [done | by apply Z.ltb_lt].
Qed.

Lemma insert_snapshot_Ok B db now pv fv gv lv vv flag prevv rawv id db' :
  insert_snapshot B db now pv fv gv lv vv flag prevv rawv = (Ok id, db') ->
  exists p f g l v prev raw,
    to_int4 B pv = Ok p /\ to_int4 B fv = Ok f /\ to_int4 B gv = Ok g /\
    to_int4 B lv = Ok l /\ to_int4 B vv = Ok v /\ to_int4 B prevv = Ok prev /\
    to_jsonb B rawv = Ok raw /\
    id = profile_snapshots_id_seq db + 1 /\
    from_option (profile_exists db) true p = true /\
    snapshot_exists db prev = true /\
    db' = {| profiles := profiles db;
             profile_snapshots := profile_snapshots db ++
               [ {| s_id := id; s_profile_id := p;
                    s_followers_count := f; s_following_count := g;
                    s_likes_count := l; s_video_count := v;
                    s_snapshot_timestamp := now;
                    s_change_detected := flag;
                    s_previous_snapshot_id := prev;
                    s_raw_data := raw |} ];
             profiles_id_seq := profiles_id_seq db;
             profile_snapshots_id_seq := id |}.
Proof.
  unfold insert_snapshot. intros H.
  destruct (to_int4 B pv) as [p|]; [|discriminate]. simpl in H.
  destruct (to_int4 B fv) as [f|]; [|discriminate]. simpl in H.
  destruct (to_int4 B gv) as [g|]; [|discriminate]. simpl in H.
  destruct (to_int4 B lv) as [l|]; [|discriminate]. simpl in H.
  destruct (to_int4 B vv) as [v|]; [|discriminate]. simpl in H.
  destruct (to_int4 B prevv) as [prev|]; [|discriminate]. simpl in H.
  destruct (to_jsonb B rawv) as [raw|]; [|discriminate]. simpl in H.
  destruct (nextval _) as [n|] eqn:Hn; [|discriminate]. simpl in H.
  apply nextval_Ok in Hn as [-> _].
  destruct (from_option _ _ _) eqn:Hp; [|discriminate].
  destruct (snapshot_exists _ _) eqn:Hs; [|discriminate].
  simpl in H. injection H as <- <-.
  exists p, f, g, l, v, prev, raw. split_and!; done.
Qed.

Lemma insert_snapshot_Raise B db now pv fv gv lv vv flag prevv rawv e db' :
  insert_snapshot B db now pv fv gv lv vv flag prevv rawv = (Raise e, db') ->
  profiles db' = profiles db /\
  profile_snapshots db' = profile_snapshots db /\
  profiles_id_seq db' = profiles_id_seq db /\
  profile_snapshots_id_seq db <= profile_snapshots_id_seq db'.
Proof.
  unfold insert_snapshot. intros H.
  destruct (_ ≫= _) as [[[[[[[[p f] g] l] v] prev] raw] n]|e'] eqn:Hvals.
  - repeat (bind_inv Hvals). simplify_eq.
    match goal with Hn : nextval _ = Ok _ |- _ =>
      apply nextval_Ok in Hn as [-> _] end.
    destruct (_ && _); [discriminate|]. simplify_eq. simpl.
    split_and!; try done. lia.
  - simplify_eq. split_and!; try done.
Qed.

Lemma insert_profile_Ok B db now uv pv dv bv av vv id db' :
  insert_profile B db now uv pv dv bv av vv = (Ok id, db') ->
  exists u p d b a v,
    to_varchar B 100 uv = Ok (Some u) /\
    id = profiles_id_seq db + 1 /\
    username_taken db u = false /\
    profile_id_taken db p = false /\
    db' = {| profiles := profiles db ++
               [ {| p_id := id; p_username := u; p_profile_id := p;
                    p_display_name := d; p_bio := b; p_avatar_url := a;
                    p_verified := v; p_created_at := now;
                    p_last_checked := Some now; p_is_active := true |} ];
             profile_snapshots := profile_snapshots db;
             profiles_id_seq := id;
             profile_snapshots_id_seq := profile_snapshots_id_seq db |}.
Proof.
  unfold insert_profile. intros H.
  destruct (profile_values _ _ _ _ _ _ _ _)
    as [[[[[[[[u|] p] d] b] a] v] n]|e'] eqn:Hvals; try discriminate.
  unfold profile_values in Hvals.
  destruct (to_varchar B 100 uv) as [u0|] eqn:Hu0; [|discriminate].
  simpl in Hvals. repeat (bind_inv Hvals). simplify_eq.
  match goal with Hn : nextval _ = Ok _ |- _ =>
    apply nextval_Ok in Hn as [-> _] end.
  destruct (username_taken db u) eqn:Hu; [discriminate|].
  destruct (profile_id_taken db p) eqn:Hp; [discriminate|].
  simpl in H. simplify_eq.
  exists u, p, d, b, a, v. split_and!; done.
Qed.

Lemma insert_profile_Raise B db now uv pv dv bv av vv e db' :
  insert_profile B db now uv pv dv bv av vv = (Raise e, db') ->
  profiles db' = profiles db /\
  profile_snapshots db' = profile_snapshots db /\
  profile_snapshots_id_seq db' = profile_snapshots_id_seq db /\
  profiles_id_seq db <= profiles_id_seq db'.
Proof.
  unfold insert_profile. intros H.
  destruct (profile_values _ _ _ _ _ _ _ _)
    as [[[[[[[[u|] p] d] b] a] v] n]|e'] eqn:Hvals.
  - unfold profile_values in Hvals. repeat (bind_inv Hvals). simplify_eq.
    match goal with Hn : nextval _ = Ok _ |- _ =>
      apply nextval_Ok in Hn as [-> _] end.
    destruct (_ || _); [|discriminate]. simplify_eq. simpl.
    split_and!; try done. lia.
  - unfold profile_values in Hvals. repeat (bind_inv Hvals). simplify_eq.
    match goal with Hn : nextval _ = Ok _ |- _ =>
      apply nextval_Ok in Hn as [-> _] end.
    simpl. split_and!; try done. lia.
  - simplify_eq. split_and!; done.
Qed.

Lemma create_snapshot_insert B db now profile_id profile_data change_analysis :
  create_snapshot B db now profile_id profile_data change_analysis =
  match change_analysis !! "reason" with
  | None => (Raise (KeyError "reason"), db)
  | Some reason =>
      match change_analysis !! "previous_snapshot_id" with
      | Some (AChanges _) => (Raise ProgrammingError, db)
      | _ =>
          insert_snapshot B db now (VInt profile_id)
            (default VNone (profile_data !! "followers_count"))
            (default VNone (profile_data !! "following_count"))
            (default VNone (profile_data !! "likes_count"))
            (default VNone (profile_data !! "video_count"))
            (reason_flag reason) (previous_value change_analysis)
            (default VNone (profile_data !! "raw_data"))
      end
  end.
Proof.
  unfold create_snapshot, getitem, previous_value.
  destruct (change_analysis !! "reason"); [|done].
  by destruct (change_analysis !! "previous_snapshot_id") as [[]|].
Qed.

Lemma create_snapshot_Raise B db now profile_id profile_data change_analysis e db' :
  create_snapshot B db now profile_id profile_data change_analysis = (Raise e, db') ->
  profiles db' = profiles db /\
  profile_snapshots db' = profile_snapshots db /\
  profiles_id_seq db' = profiles_id_seq db /\
  profile_snapshots_id_seq db <= profile_snapshots_id_seq db'.
Proof.
  rewrite create_snapshot_insert. intros H.
  destruct (change_analysis !! "reason");
    [|injection H as <- <-; split_and!; done].
  destruct (change_analysis !! "previous_snapshot_id") as [[v|c]|];
    try (by apply insert_snapshot_Raise in H).
  injection H as <- <-. split_and!; done.
Qed.


(** ** What the schema keeps true *)

Lemma username_taken_false db u :
  username_taken db u = false <-> u ∉ p_username <$> profiles db.
Proof.
  unfold username_taken. rewrite bool_decide_eq_false, Exists_exists.
  rewrite list_elem_of_fmap. split.
  - intros Hn (r & -> & Hin). apply Hn. eauto.
  - intros Hn (r & Hin & <-). apply Hn. eauto.
Qed.

Lemma profile_exists_true db id :
  profile_exists db id = true <-> exists q, q ∈ profiles db /\ p_id q = id.
Proof. unfold profile_exists. by rewrite bool_decide_eq_true, Exists_exists. Qed.

Lemma snapshot_exists_Some db i :
  snapshot_exists db (Some i) = true <->
  exists r, r ∈ profile_snapshots db /\ s_id r = i.
Proof. unfold snapshot_exists. by rewrite bool_decide_eq_true, Exists_exists. Qed.

(** The row that [UPDATE ... SET last_checked] leaves in place of [r]. *)
Lemma update_last_checked_rows db now id :
  Forall2 same_profile (profiles db) (profiles (update_last_checked db now id)).
Proof.
  simpl. apply Forall2_fmap_r, Forall_Forall2_diag, Forall_forall.
  intros r _. unfold same_profile, compose.
  by destruct (decide (p_id r = id)).
Qed.

Lemma same_profile_ids l l' :
  Forall2 same_profile l l' -> p_id <$> l' = p_id <$> l.
Proof. induction 1 as [|r r' l l' H _ IH]; simpl; [done|]. f_equal; [apply H | done]. Qed.

Lemma same_profile_usernames l l' :
  Forall2 same_profile l l' -> p_username <$> l' = p_username <$> l.
Proof. induction 1 as [|r r' l l' H _ IH]; simpl; [done|]. f_equal; [apply H | done]. Qed.

Lemma db_ok_empty : db_ok Db.empty.
Proof.
  split; simpl; try (intros; exfalso; eapply elem_of_nil; eassumption);
    try constructor; done.
Qed.

(** The constraints do not see [last_checked], and allow the sequences to
    run ahead. *)
Lemma db_ok_same_profiles db db' :
  Forall2 same_profile (profiles db) (profiles db') ->
  profile_snapshots db' = profile_snapshots db ->
  profiles_id_seq db <= profiles_id_seq db' ->
  profile_snapshots_id_seq db <= profile_snapshots_id_seq db' ->
  db_ok db -> db_ok db'.
Proof.
  intros Hsame Hs Hseq Hsseq [H1 H2 H3 H4 H5 H6 H7 H8 H9].
  assert (forall q, q ∈ profiles db ->
            exists q', q' ∈ profiles db' /\ p_id q' = p_id q) as Hfwd.
  { intros q Hq. apply list_elem_of_lookup in Hq as [k Hk].
    destruct (Forall2_lookup_l _ _ _ _ _ Hsame Hk) as (q' & Hk' & Hqq').
    exists q'. split; [by eapply list_elem_of_lookup_2 | apply Hqq']. }
  assert (forall q', q' ∈ profiles db' ->
            exists q, q ∈ profiles db /\ p_id q' = p_id q) as Hbwd.
  { intros q' Hq'. apply list_elem_of_lookup in Hq' as [k Hk'].
    destruct (Forall2_lookup_r _ _ _ _ _ Hsame Hk') as (q & Hk & Hqq').
    exists q. split; [by eapply list_elem_of_lookup_2 | apply Hqq']. }
  split; rewrite ?Hs; try done.
  - by rewrite (same_profile_usernames _ _ Hsame).
  - by rewrite (same_profile_ids _ _ Hsame).
  - intros r Hr. destruct (Hbwd r Hr) as (q & Hq & ->). specialize (H3 q Hq). lia.
  - intros r Hr. specialize (H5 r Hr). lia.
  - intros r p Hr Hp. destruct (H6 r p Hr Hp) as (q & Hq & <-).
    destruct (Hfwd q Hq) as (q' & Hq' & Hid). eauto.
  - lia.
  - lia.
Qed.

Lemma same_profile_refl l : Forall2 same_profile l l.
Proof. apply Forall_Forall2_diag, Forall_forall. intros r _. by unfold same_profile. Qed.

Lemma db_ok_insert_profile B db now uv pv dv bv av vv :
  db_ok db -> db_ok (snd (insert_profile B db now uv pv dv bv av vv)).
Proof.
  intros Hok.
  destruct (insert_profile B db now uv pv dv bv av vv) as [[id|e] db'] eqn:H.
  - apply insert_profile_Ok in H
      as (u & p & d & b & a & v & _ & -> & Hu & _ & ->).
    destruct Hok as [H1 H2 H3 H4 H5 H6 H7 H8 H9]. simpl.
    split; simpl; try done; try lia.
    + rewrite fmap_app. apply NoDup_app. split_and!; [done| |apply NoDup_singleton].
      intros x Hx Hx'. apply list_elem_of_singleton in Hx' as ->.
      by apply username_taken_false in Hu.
    + rewrite fmap_app. apply NoDup_app. split_and!; [done| |apply NoDup_singleton].
      intros x Hx Hx'. apply list_elem_of_singleton in Hx' as ->.
      apply list_elem_of_fmap in Hx as (r & Hid & Hr).
      specialize (H3 r Hr). simpl in Hid. lia.
    + intros r Hr. apply elem_of_app in Hr as [Hr|Hr].
      * specialize (H3 r Hr). lia.
      * apply list_elem_of_singleton in Hr as ->. simpl. lia.
    + intros r q Hr Hq. destruct (H6 r q Hr Hq) as (q0 & Hq0 & <-).
      exists q0. split; [|done]. apply elem_of_app. by left.
  - simpl. apply insert_profile_Raise in H as (Hp & Hs & Hss & Hseq).
    apply (db_ok_same_profiles db db'); try done; try lia.
    rewrite Hp. apply same_profile_refl.
Qed.

Lemma db_ok_insert_snapshot B db now pv fv gv lv vv flag prevv rawv :
  db_ok db ->
  db_ok (snd (insert_snapshot B db now pv fv gv lv vv flag prevv rawv)).
Proof.
  intros Hok.
  destruct (insert_snapshot B db now pv fv gv lv vv flag prevv rawv)
    as [[id|e] db'] eqn:H.
  - apply insert_snapshot_Ok in H
      as (p & f & g & l & v & prev & raw & _ & _ & _ & _ & _ & _ & _ &
          -> & Hp & Hprev & ->).
    destruct Hok as [H1 H2 H3 H4 H5 H6 H7 H8 H9].
    split; simpl; try done; try lia.
    + rewrite fmap_app. apply StronglySorted_app. split_and!; [|done|].
      * intros x y Hx Hy. apply list_elem_of_singleton in Hy as ->.
        apply list_elem_of_fmap in Hx as (r & -> & Hr). specialize (H5 r Hr).
        simpl. lia.
      * repeat constructor.
    + intros r Hr. apply elem_of_app in Hr as [Hr|Hr].
      * specialize (H5 r Hr). lia.
      * apply list_elem_of_singleton in Hr as ->. simpl. lia.
    + intros r q Hr Hq. apply elem_of_app in Hr as [Hr|Hr]; [eauto|].
      apply list_elem_of_singleton in Hr as ->. simpl in Hq. subst p.
      simpl in Hp. by apply profile_exists_true.
    + intros r i Hr Hi. apply elem_of_app in Hr as [Hr|Hr].
      * destruct (H7 r i Hr Hi) as (Hlt & r' & Hr' & Hid).
        split; [done|]. exists r'. split; [|done]. apply elem_of_app. by left.
      * apply list_elem_of_singleton in Hr as ->. simpl in Hi. subst prev.
        apply snapshot_exists_Some in Hprev as (r' & Hr' & Hid). simpl.
        specialize (H5 r' Hr'). split; [lia|].
        exists r'. split; [|done]. apply elem_of_app. by left.
  - simpl. apply insert_snapshot_Raise in H as (Hp & Hs & Hss & Hseq).
    apply (db_ok_same_profiles db db'); try done; try lia.
    rewrite Hp. apply same_profile_refl.
Qed.

Lemma db_ok_get_or_create_profile B now username profile_data db :
  db_ok db ->
  db_ok (snd (get_or_create_profile B id now username profile_data db)).
Proof.
  intros Hok. unfold get_or_create_profile.
  destruct (select_profile_id db (lower username)) as [i|]; simpl.
  - apply (db_ok_same_profiles db); try done.
    apply update_last_checked_rows.
  - by apply db_ok_insert_profile.
Qed.

Lemma db_ok_create_snapshot B db now profile_id profile_data change_analysis :
  db_ok db ->
  db_ok (snd (create_snapshot B db now profile_id profile_data change_analysis)).
Proof.
  intros Hok. rewrite create_snapshot_insert.
  destruct (change_analysis !! "reason"); [|done].
  destruct (change_analysis !! "previous_snapshot_id") as [[v|c]|];
    try (by apply db_ok_insert_snapshot). done.
Qed.




(** ** Rows are appended, never rewritten *)

Lemma get_or_create_profile_cases B now username profile_data db :
  (exists i,
     select_profile_id db (lower username) = Some i /\
     get_or_create_profile B id now username profile_data db
       = (Ok i, update_last_checked db now i)) \/
  (select_profile_id db (lower username) = None /\
   get_or_create_profile B id now username profile_data db
     = insert_profile B db now (VStr (lower username))
         (default VNone (profile_data !! "profile_id"))
         (default VNone (profile_data !! "display_name"))
         (default VNone (profile_data !! "bio"))
         (default VNone (profile_data !! "avatar_url"))
         (default (VBool false) (profile_data !! "verified"))).
Proof.
  unfold get_or_create_profile.
  destruct (select_profile_id db (lower username)) as [i|]; [left|right]; eauto.
Qed.

Lemma extends_refl db : extends db db.
Proof.
  split; [exists []; by rewrite app_nil_r|].
  exists (profiles db), []. split; [by rewrite app_nil_r | apply same_profile_refl].
Qed.

Lemma same_profile_trans r1 r2 r3 :
  same_profile r1 r2 -> same_profile r2 r3 -> same_profile r1 r3.
Proof.
  unfold same_profile.
  intros (?&?&?&?&?&?&?&?&?) (?&?&?&?&?&?&?&?&?). split_and!; congruence.
Qed.

Lemma extends_trans db1 db2 db3 :
  extends db1 db2 -> extends db2 db3 -> extends db1 db3.
Proof.
  intros [[rows1 Hs1] (old1 & new1 & Hp1 & Hsame1)]
         [[rows2 Hs2] (old2 & new2 & Hp2 & Hsame2)].
  split.
  - exists (rows1 ++ rows2). by rewrite Hs2, Hs1, app_assoc.
  - rewrite Hp1 in Hsame2.
    apply Forall2_app_inv_l in Hsame2 as (o1 & o2 & Ho1 & Ho2 & ->).
    exists o1, (o2 ++ new2). split; [by rewrite Hp2, app_assoc|].
    clear -Hsame1 Ho1. revert o1 Ho1.
    induction Hsame1 as [|r r' l l' H _ IH]; intros o1 Ho1.
    + apply Forall2_nil_inv_l in Ho1 as ->. constructor.
    + apply Forall2_cons_inv_l in Ho1 as (r'' & o' & Hr & Ho & ->).
      constructor; [by eapply same_profile_trans | by apply IH].
Qed.

Lemma extends_get_or_create_profile B now username profile_data db :
  extends db (snd (get_or_create_profile B id now username profile_data db)).
Proof.
  destruct (get_or_create_profile_cases B now username profile_data db)
    as [(i & _ & ->)|[_ ->]]; simpl.
  - split; [exists []; by rewrite app_nil_r|].
    exists (profiles (update_last_checked db now i)), [].
    split; [by rewrite app_nil_r | apply update_last_checked_rows].
  - destruct (insert_profile _ _ _ _ _ _ _ _ _) as [[i|e] db'] eqn:H; simpl.
    + apply insert_profile_Ok in H as (u & p & d & b & a & v & _ & _ & _ & _ & ->).
      split; simpl; [exists []; by rewrite app_nil_r|].
      eexists _, _. split; [done | apply same_profile_refl].
    + apply insert_profile_Raise in H as (Hp & Hs & _).
      split; [exists []; by rewrite Hs, app_nil_r|].
      exists (profiles db), []. rewrite Hp, app_nil_r.
      split; [done | apply same_profile_refl].
Qed.

Lemma extends_create_snapshot B db now profile_id profile_data change_analysis :
  extends db (snd (create_snapshot B db now profile_id profile_data change_analysis)).
Proof.
  destruct (create_snapshot B db now profile_id profile_data change_analysis)
    as [[i|e] db'] eqn:H; simpl.
  - apply create_snapshot_Ok in H as (reason & row & _ & Hs & Hp & _).
    split; [by exists [row]|].
    exists (profiles db), []. rewrite Hp, app_nil_r.
    split; [done | apply same_profile_refl].
  - apply create_snapshot_Raise in H as (Hp & Hs & _).
    split; [exists []; by rewrite Hs, app_nil_r|].
    exists (profiles db), []. rewrite Hp, app_nil_r.
    split; [done | apply same_profile_refl].
Qed.

Lemma extends_run_calls B calls : forall db, extends db (run_calls B calls db).
Proof.
  unfold run_calls.
  induction calls as [|c calls IH]; intros db; [apply extends_refl|].
  simpl. eapply extends_trans; [|apply IH].
  destruct c; simpl;
    [apply extends_get_or_create_profile | apply extends_create_snapshot].
Qed.

(** No call of the scraper deletes or rewrites a snapshot, or changes
    anything of a profile but [last_checked]: after any sequence of calls
    the snapshots of before are the first rows of the table, unchanged, and
    the profiles of before are the first rows of theirs, the same up to
    [last_checked]. *)
Theorem calls_append_only (B : backend) (calls : list call) (db : database) :
  (exists rows,
     profile_snapshots (run_calls B calls db) = profile_snapshots db ++ rows) /\
  (exists old new,
     profiles (run_calls B calls db) = old ++ new /\
     Forall2 same_profile (profiles db) old).
Proof. apply extends_run_calls. Qed.

(** ** A call that raises *)

(** A call of [create_snapshot] or of [get_or_create_profile] that raises
    has written nothing: both tables are as before the call. *)
Theorem raising_call_writes_nothing
    (B : backend) (db : database) (now profile_id : Z) (username : string)
    (profile_data : gmap string value) (change_analysis : gmap string avalue)
    (e : exn) (db' : database) :
  create_snapshot B db now profile_id profile_data change_analysis = (Raise e, db')
  \/ get_or_create_profile B id now username profile_data db = (Raise e, db') ->
  profiles db' = profiles db /\ profile_snapshots db' = profile_snapshots db.
Proof.
  intros [H|H].
  - by apply create_snapshot_Raise in H as (Hp & Hs & _).
  - destruct (get_or_create_profile_cases B now username profile_data db)
      as [(i & _ & Heq)|[_ Heq]]; rewrite Heq in H; [discriminate|].
    by apply insert_profile_Raise in H as (Hp & Hs & _).
Qed.

(** [create_snapshot] for an id that no profile bears never returns: it
    raises, and the table of snapshots is as before. *)
Theorem create_snapshot_unknown_profile
    (B : backend) (db : database) (now profile_id : Z)
    (profile_data : gmap string value) (change_analysis : gmap string avalue) :
  backend_ok B ->
  (forall q, q ∈ profiles db -> p_id q ≠ profile_id) ->
  exists e db',
    create_snapshot B db now profile_id profile_data change_analysis
      = (Raise e, db') /\
    profile_snapshots db' = profile_snapshots db /\
    profiles db' = profiles db.
Proof.
  intros B_ok Hnone.
  destruct (create_snapshot B db now profile_id profile_data change_analysis)
    as [[i|e] db'] eqn:H.
  - exfalso. rewrite create_snapshot_insert in H.
    destruct (change_analysis !! "reason"); [|discriminate].
    assert (exists pv, insert_snapshot B db now (VInt profile_id)
              (default VNone (profile_data !! "followers_count"))
              (default VNone (profile_data !! "following_count"))
              (default VNone (profile_data !! "likes_count"))
              (default VNone (profile_data !! "video_count"))
              (reason_flag a) pv
              (default VNone (profile_data !! "raw_data")) = (Ok i, db'))
      as [pv Hins].
    { destruct (change_analysis !! "previous_snapshot_id") as [[v|c]|];
        [eauto | discriminate | eauto]. }
    apply insert_snapshot_Ok in Hins
      as (p & _ & _ & _ & _ & _ & _ & Hp & _ & _ & _ & _ & _ & _ & _ & Hex & _).
    rewrite (int4_int B B_ok) in Hp.
    destruct (in_int4 profile_id); [|discriminate]. injection Hp as <-.
    simpl in Hex. apply profile_exists_true in Hex as (q & Hq & Hid).
    by apply (Hnone q Hq).
  - exists e, db'. apply create_snapshot_Raise in H as (Hp & Hs & _). done.
Qed.

(** ** Resolving a profile *)



Lemma select_profile_id_unique db r :
  NoDup (p_username <$> profiles db) -> r ∈ profiles db ->
  select_profile_id db (p_username r) = Some (p_id r).
Proof.
  unfold select_profile_id. intros Hnd Hin.
  induction (profiles db) as [|r0 l IH]; [by apply elem_of_nil in Hin|].
  rewrite fmap_cons in Hnd. apply NoDup_cons in Hnd as [Hr0 Hnd].
  rewrite filter_cons. destruct (decide (p_username r0 = p_username r)) as [He|Hne].
  - simpl. apply elem_of_cons in Hin as [->|Hin]; [done|].
    destruct Hr0. rewrite He. apply list_elem_of_fmap. eauto.
  - apply elem_of_cons in Hin as [->|Hin]; [done|]. by apply IH.
Qed.

(** For a key that is registered, [get_or_create_profile] answers the id of
    its row and writes [last_checked] only: every profile keeps its other
    columns, whatever attributes [profile_data] carries, and no row is
    added to either table. *)
Theorem get_or_create_profile_existing
    (B : backend) (now : Z) (username : string)
    (profile_data : gmap string value) (db : database) (r : profile_row) :
  NoDup (p_username <$> profiles db) ->
  r ∈ profiles db ->
  p_username r = lower username ->
  exists db',
    get_or_create_profile B id now username profile_data db = (Ok (p_id r), db') /\
    Forall2 same_profile (profiles db) (profiles db') /\
    (forall q, q ∈ profiles db' -> p_id q = p_id r -> p_last_checked q = Some now) /\
    profile_snapshots db' = profile_snapshots db.
Proof.
  intros Hnd Hin Hu. exists (update_last_checked db now (p_id r)).
  unfold get_or_create_profile.
  rewrite <- Hu, (select_profile_id_unique db r Hnd Hin). split_and!; try done.
  - apply update_last_checked_rows.
  - intros q Hq Hid. simpl in Hq.
    apply list_elem_of_fmap in Hq as (q0 & -> & _).
    destruct (decide (p_id q0 = p_id r)) as [|Hne]; [done|].
    by destruct Hne.
Qed.




(** ** The edges of the detector *)

(** A tracked metric whose baseline is negative is never recorded, and its
    current value is not even looked at; nor is a metric recorded whose
    baseline is 0 and whose current value is 0 or less. *)
Theorem calculate_changes_nonpositive_baseline
    (change_threshold : float) (current_data last_snapshot : gmap string value)
    (metric : string) (b : Z) (has_changed : bool) (changes : gmap string change) :
  metric ∈ metrics ->
  default (VInt 0) (last_snapshot !! metric) = VInt b ->
  b < 0 \/ (b = 0 /\ exists c, default (VInt 0) (current_data !! metric) = VInt c
                               /\ c <= 0) ->
  calculate_changes change_threshold current_data last_snapshot
    = Ok (has_changed, changes) ->
  changes !! metric = None.
Proof.
  intros Hin Hlast Hb H.
  destruct (calculate_changes_at _ _ _ _ _ _ Hin H)
    as (acc0 & r0 & Hstep & Hacc & Hch & Hflag).
  unfold calculate_metric in Hstep. rewrite Hlast in Hstep.
  unfold eq_zero, gt_zero in Hstep. simpl in Hstep.
  destruct Hb as [Hb|(-> & c & Hcur & Hc)].
  - rewrite (proj2 (Z.eqb_neq b 0)) in Hstep by lia. simpl in Hstep.
    rewrite (proj2 (Z.ltb_ge 0 b)) in Hstep by lia. simpl in Hstep.
    injection Hstep as <-. by rewrite Hch.
  - rewrite Hcur in Hstep. simpl in Hstep.
    rewrite (proj2 (Z.ltb_ge 0 c)) in Hstep by lia. simpl in Hstep.
    injection Hstep as <-. by rewrite Hch.
Qed.

Lemma calculate_loop_null thr cur last metric ms : forall acc,
  metric ∈ ms -> last !! metric = Some VNone ->
  exists e, calculate_loop thr cur last ms acc = Raise e.
Proof.
  induction ms as [|m ms IH]; intros acc Hin Hnull; [by apply elem_of_nil in Hin|].
  simpl. destruct (decide (metric = m)) as [<-|Hne].
  - exists TypeError. unfold calculate_metric. rewrite Hnull. reflexivity.
  - assert (metric ∈ ms) as Hin' by set_solver.
    destruct (calculate_metric thr cur last acc m) as [acc'|e]; simpl; eauto.
Qed.

(** When the newest snapshot of a profile holds [NULL] in a tracked
    metric, every decision for the profile raises, whatever the
    observation and the clock, and a turn for the profile writes no
    snapshot: the profile gets no further snapshot. *)
Theorem null_metric_blocks_profile
    (B : backend) (change_threshold : float) (db : database)
    (t1 t2 t3 profile_id : Z) (username : string)
    (current_data : gmap string value) (last : snapshot_row) (metric : string) :
  select_last_snapshot B db profile_id = Some last ->
  metric ∈ metrics ->
  row_dict last !! metric = Some VNone ->
  select_profile_id db (lower username) = Some profile_id ->
  (exists e, should_create_snapshot B change_threshold db t2 profile_id current_data
             = Raise e) /\
  (exists e, fst (process_profile B change_threshold t1 t2 t3 username
                    current_data db) = Raise e) /\
  profile_snapshots
    (snd (process_profile B change_threshold t1 t2 t3 username current_data db))
  = profile_snapshots db.
Proof.
  intros Hlast Hin Hnull Hsel.
  assert (forall db1, profile_snapshots db1 = profile_snapshots db ->
            exists e, should_create_snapshot B change_threshold db1 t2 profile_id
                        current_data = Raise e) as Hraise.
  { intros db1 Hrows. unfold should_create_snapshot.
    rewrite get_last_snapshot_select, (select_last_snapshot_rows _ _ _ _ Hrows), Hlast.
    simpl.
    destruct (calculate_loop_null change_threshold current_data (row_dict last)
                metric metrics (false, ∅) Hin Hnull) as [e He].
    unfold calculate_changes. rewrite He. eauto. }
  split; [by apply Hraise|].
  unfold process_profile, get_or_create_profile. rewrite Hsel.
  change (id db) with db.
  destruct (Hraise (update_last_checked db t1 profile_id) eq_refl) as [e ->].
  simpl. eauto.
Qed.

(** ** What a snapshot stores *)

Lemma create_snapshot_Ok_row B db now profile_id profile_data change_analysis id db' :
  create_snapshot B db now profile_id profile_data change_analysis = (Ok id, db') ->
  exists reason p f g l v prev raw,
    change_analysis !! "reason" = Some reason /\
    to_int4 B (VInt profile_id) = Ok p /\
    to_int4 B (default VNone (profile_data !! "followers_count")) = Ok f /\
    to_int4 B (default VNone (profile_data !! "following_count")) = Ok g /\
    to_int4 B (default VNone (profile_data !! "likes_count")) = Ok l /\
    to_int4 B (default VNone (profile_data !! "video_count")) = Ok v /\
    to_int4 B (previous_value change_analysis) = Ok prev /\
    id = profile_snapshots_id_seq db + 1 /\
    profiles db' = profiles db /\
    profile_snapshots db' = profile_snapshots db ++
      [ {| s_id := id; s_profile_id := p;
           s_followers_count := f; s_following_count := g;
           s_likes_count := l; s_video_count := v;
           s_snapshot_timestamp := now;
           s_change_detected := reason_flag reason;
           s_previous_snapshot_id := prev;
           s_raw_data := raw |} ].
Proof.
  rewrite create_snapshot_insert. intros H.
  destruct (change_analysis !! "reason") as [reason|]; [|discriminate].
  assert (insert_snapshot B db now (VInt profile_id)
            (default VNone (profile_data !! "followers_count"))
            (default VNone (profile_data !! "following_count"))
            (default VNone (profile_data !! "likes_count"))
            (default VNone (profile_data !! "video_count"))
            (reason_flag reason) (previous_value change_analysis)
            (default VNone (profile_data !! "raw_data")) = (Ok id, db')) as Hins.
  { destruct (change_analysis !! "previous_snapshot_id") as [[x|c]|];
      [exact H | discriminate | exact H]. }
  apply insert_snapshot_Ok in Hins
    as (p & f & g & l & v & prev & raw & Hp & Hf & Hg & Hl & Hv & Hprev & _ &
        Hid & _ & _ & ->).
  exists reason, p, f, g, l, v, prev, raw. split_and!; done.
Qed.

Lemma to_int4_stored B v o :
  backend_ok B -> to_int4 B v = Ok o ->
  (forall z, v = VInt z -> in_int4 z = true /\ o = Some z) /\
  (v = VNone -> o = None).
Proof.
  intros B_ok H. split.
  - intros z ->. rewrite (int4_int B B_ok) in H.
    destruct (in_int4 z); [|discriminate]. by injection H as <-.
  - intros ->. rewrite (int4_none B B_ok) in H. by injection H as <-.
Qed.

(** The row that a successful [create_snapshot] appends bears the profile
    id and the clock reading of the call, and reads back each tracked
    metric as it was passed: an [int], which must fit 32 bits, as that
    [int]; [None] or an absent key as [None]. *)
Theorem create_snapshot_stores_observation
    (B : backend) (db : database) (now profile_id : Z)
    (profile_data : gmap string value) (change_analysis : gmap string avalue)
    (id : Z) (db' : database) :
  backend_ok B ->
  create_snapshot B db now profile_id profile_data change_analysis = (Ok id, db') ->
  exists row,
    profile_snapshots db' = profile_snapshots db ++ [row] /\
    s_id row = id /\
    s_profile_id row = Some profile_id /\
    s_snapshot_timestamp row = now /\
    forall metric, metric ∈ metrics ->
      (forall z, profile_data !! metric = Some (VInt z) ->
         in_int4 z = true /\ row_dict row !! metric = Some (VInt z)) /\
      (profile_data !! metric = None \/ profile_data !! metric = Some VNone ->
         row_dict row !! metric = Some VNone).
Proof.
  intros B_ok H. apply create_snapshot_Ok_row in H
    as (reason & p & f & g & l & v & prev & raw & _ & Hp & Hf & Hg & Hl & Hv &
        _ & Hid & _ & Hrows).
  eexists. split; [exact Hrows|]. simpl.
  destruct (to_int4_stored B _ _ B_ok Hp) as [Hpz _].
  destruct (Hpz profile_id eq_refl) as [_ ->].
  split_and!; try done.
  intros metric Hin. unfold metrics in Hin.
  repeat (apply elem_of_cons in Hin as [->|Hin]); [| | | |by apply elem_of_nil in Hin].
  - destruct (to_int4_stored B _ _ B_ok Hf) as [Hz Hn]. split.
    + intros z Hm. rewrite Hm in Hz. by destruct (Hz z eq_refl) as [? ->].
    + intros [Hm|Hm]; rewrite Hm in Hn; by rewrite (Hn eq_refl).
  - destruct (to_int4_stored B _ _ B_ok Hg) as [Hz Hn]. split.
    + intros z Hm. rewrite Hm in Hz. by destruct (Hz z eq_refl) as [? ->].
    + intros [Hm|Hm]; rewrite Hm in Hn; by rewrite (Hn eq_refl).
  - destruct (to_int4_stored B _ _ B_ok Hl) as [Hz Hn]. split.
    + intros z Hm. rewrite Hm in Hz. by destruct (Hz z eq_refl) as [? ->].
    + intros [Hm|Hm]; rewrite Hm in Hn; by rewrite (Hn eq_refl).
  - destruct (to_int4_stored B _ _ B_ok Hv) as [Hz Hn]. split.
    + intros z Hm. rewrite Hm in Hz. by destruct (Hz z eq_refl) as [? ->].
    + intros [Hm|Hm]; rewrite Hm in Hn; by rewrite (Hn eq_refl).
Qed.

(** After a snapshot of an observation with four non-negative [int]
    metrics was written, later than every snapshot the profile had, the
    decision for the same observation raises the [TypeError] of line 116,
    for any positive threshold and whatever the clock reads: a profile that
    has not changed since its last snapshot is not decided upon. *)
Theorem same_observation_after_snapshot
    (B : backend) (change_threshold : float) (db : database)
    (t now profile_id : Z) (profile_data : gmap string value)
    (change_analysis : gmap string avalue) (id : Z) (db' : database) :
  backend_ok B ->
  ge (S754_zero false) (times_100 change_threshold) = false ->
  (forall metric, metric ∈ metrics ->
     exists v, 0 <= v /\ profile_data !! metric = Some (VInt v)) ->
  create_snapshot B db t profile_id profile_data change_analysis = (Ok id, db') ->
  (forall r, r ∈ profile_snapshots db -> s_profile_id r = Some profile_id ->
             s_snapshot_timestamp r < t) ->
  should_create_snapshot B change_threshold db' now profile_id profile_data
    = Raise TypeError.
Proof.
  intros B_ok Hthr Hobs H Holder.
  apply create_snapshot_Ok_row in H
    as (reason & p & f & g & l & v & prev & raw & _ & Hp & Hf & Hg & Hl & Hv &
        _ & _ & _ & Hrows).
  destruct (to_int4_stored B _ _ B_ok Hp) as [Hpz _].
  destruct (Hpz profile_id eq_refl) as [_ ->].
  set (row := {| s_id := id; s_profile_id := Some profile_id;
                 s_followers_count := f; s_following_count := g;
                 s_likes_count := l; s_video_count := v;
                 s_snapshot_timestamp := t;
                 s_change_detected := reason_flag reason;
                 s_previous_snapshot_id := prev; s_raw_data := raw |}) in *.
  assert (select_last_snapshot B db' profile_id = Some row) as Hsel.
  { apply (select_last_snapshot_strict B B_ok); [| done |].
    - rewrite Hrows. apply elem_of_app. right. left.
    - intros r' Hr' Hp' Hle. rewrite Hrows in Hr'.
      apply elem_of_app in Hr' as [Hr'|Hr'].
      + specialize (Holder r' Hr' Hp'). simpl in Hle. lia.
      + by apply list_elem_of_singleton in Hr'. }
  assert (calculate_changes change_threshold profile_data (row_dict row)
          = Ok (false, ∅)) as Hcalc.
  { apply calculate_loop_unchanged; [done|]. apply Forall_forall.
    intros metric Hin. destruct (Hobs metric Hin) as (z & Hz & Hm).
    exists z. split; [done|]. rewrite Hm. split; [|done].
    unfold metrics in Hin.
    repeat (apply elem_of_cons in Hin as [->|Hin]);
      [| | | |by apply elem_of_nil in Hin].
    - rewrite Hm in Hf. destruct (to_int4_stored B _ _ B_ok Hf) as [Hs _].
      destruct (Hs z eq_refl) as [_ Heq]. subst row. by rewrite Heq.
    - rewrite Hm in Hg. destruct (to_int4_stored B _ _ B_ok Hg) as [Hs _].
      destruct (Hs z eq_refl) as [_ Heq]. subst row. by rewrite Heq.
    - rewrite Hm in Hl. destruct (to_int4_stored B _ _ B_ok Hl) as [Hs _].
      destruct (Hs z eq_refl) as [_ Heq]. subst row. by rewrite Heq.
    - rewrite Hm in Hv. destruct (to_int4_stored B _ _ B_ok Hv) as [Hs _].
      destruct (Hs z eq_refl) as [_ Heq]. subst row. by rewrite Heq. }
  by rewrite should_create_snapshot_cases, Hsel, Hcalc.
Qed.

(** ** The parser of the scraped page *)

Lemma subscript_Ok obj key v :
  subscript obj key = Ok v -> exists d, obj = VDict d /\ d !! key = Some v.
Proof.
  destruct obj as [| | | | |d]; try discriminate. unfold subscript, getitem.
  destruct (d !! key) as [x|] eqn:Hd; [|discriminate]. intros [= <-]. eauto.
Qed.

(** A page whose document leads to a user object parses, and whatever
    parses carries the user name it was asked for, the whole user object as
    [raw_data], and the four tracked metrics: each is the count of the user
    object, or 0 when the object has no such count.  A count that is
    present as [null] is passed on as [None]. *)
Theorem parse_profile_data_metrics
    (document : option value) (username : string)
    (profile_data : gmap string value) :
  parse_profile_data document username = Ok profile_data ->
  exists user,
    profile_data !! "username" = Some (VStr username) /\
    profile_data !! "raw_data" = Some (VDict user) /\
    profile_data !! "followers_count"
      = Some (default (VInt 0) (user !! "followerCount")) /\
    profile_data !! "following_count"
      = Some (default (VInt 0) (user !! "followingCount")) /\
    profile_data !! "likes_count"
      = Some (default (VInt 0) (user !! "heartCount")) /\
    profile_data !! "video_count"
      = Some (default (VInt 0) (user !! "videoCount")) /\
    (user !! "followerCount" = Some VNone ->
       profile_data !! "followers_count" = Some VNone) /\
    (size profile_data =? 0)%nat = false /\
    parse_profile_data (Some (document_of user)) username = Ok profile_data.
Proof.
  unfold parse_profile_data. intros H.
  destruct document as [data|]; [|discriminate].
  repeat (bind_inv H). destruct a2 as [| | | | |user]; try discriminate.
  injection H as <-. exists user.
  split_and!; try reflexivity.
  intros Hnull. replace (_ !! "followers_count")
    with (Some (default (VInt 0) (user !! "followerCount"))) by reflexivity.
  by rewrite Hnull.
Qed.

(** ** Turns of the scraper *)

(** The decisions that are made: [first_snapshot] and [metrics_changed]. *)
Lemma should_create_snapshot_Ok B thr db now profile_id current_data
    should_create change_analysis :
  should_create_snapshot B thr db now profile_id current_data
    = Ok (should_create, change_analysis) ->
  (select_last_snapshot B db profile_id = None /\ should_create = true /\
   change_analysis = {[ "reason" := AVal (VStr "first_snapshot") ]}) \/
  (exists last changes,
     select_last_snapshot B db profile_id = Some last /\ should_create = true /\
     change_analysis = {[ "reason" := AVal (VStr "metrics_changed");
                          "changes" := AChanges changes;
                          "previous_snapshot_id" := AVal (VInt (s_id last)) ]}).
Proof.
  rewrite should_create_snapshot_cases.
  destruct (select_last_snapshot B db profile_id) as [last|].
  - destruct (calculate_changes _ _ _) as [[[] changes]|]; [|discriminate..].
    intros [= <- <-]. right. eauto.
  - intros [= <- <-]. by left.
Qed.

(** Every decision names its reason, and a decision to create never
    names [no_significant_changes]. *)
Lemma should_create_snapshot_reason B thr db now profile_id current_data
    should_create change_analysis :
  should_create_snapshot B thr db now profile_id current_data
    = Ok (should_create, change_analysis) ->
  exists reason,
    change_analysis !! "reason" = Some reason /\
    (should_create = true -> reason_flag reason = true).
Proof.
  intros H. apply should_create_snapshot_Ok in H
    as [(_ & -> & ->)|(last & changes & _ & -> & ->)];
    eexists; (split; [reflexivity|done]).
Qed.

Section TurnFacts.

Variable B : backend.
Variable change_threshold : float.

Local Abbreviation process := (process_profile B change_threshold).

(** What a turn does to the database: what [get_or_create_profile] does,
    or that and then what [create_snapshot] does on a decision to create. *)
Lemma process_profile_effect t1 t2 t3 username profile_data db :
  snd (process t1 t2 t3 username profile_data db)
    = snd (get_or_create_profile B id t1 username profile_data db) \/
  exists profile_id db1 change_analysis,
    get_or_create_profile B id t1 username profile_data db
      = (Ok profile_id, db1) /\
    should_create_snapshot B change_threshold db1 t2 profile_id profile_data
      = Ok (true, change_analysis) /\
    snd (process t1 t2 t3 username profile_data db)
      = snd (create_snapshot B db1 t3 profile_id profile_data change_analysis).
Proof.
  unfold process_profile.
  destruct (get_or_create_profile B id t1 username profile_data db)
    as [[pid|e] db1] eqn:Hp; [|by left].
  destruct (should_create_snapshot B change_threshold db1 t2 pid profile_data)
    as [[[] an]|e] eqn:Hd; [|by left|by left].
  right. exists pid, db1, an. split_and!; [done|done|].
  by destruct (create_snapshot B db1 t3 pid profile_data an) as [[]].
Qed.

(** A property of databases that every turn keeps is kept by a sequence of
    turns. *)
Lemma run_turns_keeps (P : database -> Prop) :
  (forall t db, P db -> P (turn_effect B change_threshold db t)) ->
  forall turns db, P db -> P (run_turns B change_threshold turns db).
Proof.
  intros Hturn turns. unfold run_turns.
  induction turns as [|t turns IH]; intros db HP; [done|].
  simpl. by apply IH, Hturn.
Qed.

Lemma db_ok_process_profile t1 t2 t3 username profile_data db :
  db_ok db -> db_ok (snd (process t1 t2 t3 username profile_data db)).
Proof.
  intros Hok.
  destruct (process_profile_effect t1 t2 t3 username profile_data db)
    as [->|(pid & db1 & an & Hp & _ & ->)].
  - by apply db_ok_get_or_create_profile.
  - apply db_ok_create_snapshot.
    replace db1 with (snd (get_or_create_profile B id t1 username profile_data db))
      by (by rewrite Hp).
    by apply db_ok_get_or_create_profile.
Qed.

Lemma all_flagged_process_profile t1 t2 t3 username profile_data db :
  all_flagged db -> all_flagged (snd (process t1 t2 t3 username profile_data db)).
Proof.
  unfold all_flagged. intros Hall.
  destruct (process_profile_effect t1 t2 t3 username profile_data db)
    as [->|(pid & db1 & an & Hp & Hd & ->)];
    [by rewrite get_or_create_profile_rows|].
  assert (profile_snapshots db1 = profile_snapshots db) as Hrows.
  { pose proof (get_or_create_profile_rows B id t1 username profile_data db)
      as Hr. by rewrite Hp in Hr. }
  destruct (create_snapshot B db1 t3 pid profile_data an) as [[i|e] db2] eqn:Hc.
  - simpl. apply create_snapshot_Ok_row in Hc
      as (reason & p & f & g & l & v & prev & raw & Hreason & _ & _ & _ & _ & _ &
          _ & _ & _ & ->).
    rewrite Hrows. apply Forall_app. split; [done|].
    apply Forall_singleton. simpl.
    apply should_create_snapshot_reason in Hd as (reason' & Hr' & Hflag).
    rewrite Hreason in Hr'. injection Hr' as <-. by apply Hflag.
  - simpl. apply create_snapshot_Raise in Hc as (_ & -> & _). by rewrite Hrows.
Qed.

Lemma chain_ok_process_profile t1 t2 t3 username profile_data db :
  backend_ok B -> db_ok db -> chain_ok db ->
  chain_ok (snd (process t1 t2 t3 username profile_data db)).
Proof.
  intros B_ok Hok Hchain.
  assert (forall db', profile_snapshots db' = profile_snapshots db -> chain_ok db')
    as Hsame.
  { intros db' Hrows r i. rewrite Hrows. apply Hchain. }
  destruct (process_profile_effect t1 t2 t3 username profile_data db)
    as [->|(pid & db1 & an & Hp & Hd & ->)].
  - apply Hsame, get_or_create_profile_rows.
  - assert (profile_snapshots db1 = profile_snapshots db) as Hrows.
    { pose proof (get_or_create_profile_rows B id t1 username profile_data db)
        as Hr. by rewrite Hp in Hr. }
    assert (db_ok db1) as Hok1.
    { replace db1
        with (snd (get_or_create_profile B id t1 username profile_data db))
        by (by rewrite Hp).
      by apply db_ok_get_or_create_profile. }
    destruct (create_snapshot B db1 t3 pid profile_data an)
      as [[i|e] db2] eqn:Hc; simpl;
      [|apply Hsame; apply create_snapshot_Raise in Hc as (_ & -> & _); done].
    apply create_snapshot_Ok_row in Hc
      as (reason & p & f & g & l & v & prev & raw & _ & Hpid & _ & _ & _ & _ &
          Hprev & Hid & _ & Hnew).
    destruct (to_int4_stored B _ _ B_ok Hpid) as [Hpz _].
    destruct (Hpz pid eq_refl) as [_ ->].
    intros r j Hr Hj. rewrite Hnew in Hr |- *.
    apply elem_of_app in Hr as [Hr|Hr].
    + rewrite Hrows in Hr.
      destruct (Hchain r j Hr Hj) as (r' & Hr' & Hidr & Hpr & Hnewest).
      exists r'. rewrite Hrows.
      split_and!; [apply elem_of_app; by left|done|done|].
      intros q Hq Hpq Hlt. apply elem_of_app in Hq as [Hq|Hq]; [by apply Hnewest|].
      apply list_elem_of_singleton in Hq as ->. simpl in Hlt.
      rewrite <- Hrows in Hr.
      pose proof (snapshot_ids_issued _ Hok1 r Hr). lia.
    + apply list_elem_of_singleton in Hr as ->. simpl in Hj. subst prev. simpl.
      apply should_create_snapshot_Ok in Hd
        as [(_ & _ & ->)|(last & changes & Hlast & _ & ->)].
      * change (previous_value _) with VNone in Hprev.
        rewrite (int4_none B B_ok) in Hprev. discriminate.
      * change (previous_value _) with (VInt (s_id last)) in Hprev.
        destruct (to_int4_stored B _ _ B_ok Hprev) as [Hz _].
        destruct (Hz _ eq_refl) as [_ [= ->]].
        apply (select_last_snapshot_Some B B_ok) in Hlast as (Hin & Hpl & Hmax).
        exists last. split_and!; [apply elem_of_app; by left|done|done|].
        intros q Hq Hpq Hlt. apply elem_of_app in Hq as [Hq|Hq]; [by apply Hmax|].
        apply list_elem_of_singleton in Hq as ->. simpl in Hlt. lia.
Qed.

Lemma first_is_oldest_process_profile t1 t2 t3 username profile_data db :
  backend_ok B -> db_ok db -> first_is_oldest db ->
  first_is_oldest (snd (process t1 t2 t3 username profile_data db)).
Proof.
  intros B_ok Hok Hfirst.
  assert (forall db', profile_snapshots db' = profile_snapshots db ->
            first_is_oldest db') as Hsame.
  { intros db' Hrows r r' p. rewrite Hrows. apply Hfirst. }
  destruct (process_profile_effect t1 t2 t3 username profile_data db)
    as [->|(pid & db1 & an & Hp & Hd & ->)].
  - apply Hsame, get_or_create_profile_rows.
  - assert (profile_snapshots db1 = profile_snapshots db) as Hrows.
    { pose proof (get_or_create_profile_rows B id t1 username profile_data db)
        as Hr. by rewrite Hp in Hr. }
    assert (db_ok db1) as Hok1.
    { replace db1
        with (snd (get_or_create_profile B id t1 username profile_data db))
        by (by rewrite Hp).
      by apply db_ok_get_or_create_profile. }
    destruct (create_snapshot B db1 t3 pid profile_data an)
      as [[i|e] db2] eqn:Hc; simpl;
      [|apply Hsame; apply create_snapshot_Raise in Hc as (_ & -> & _); done].
    apply create_snapshot_Ok_row in Hc
      as (reason & p0 & f & g & l & v & prev & raw & _ & Hpid & _ & _ & _ & _ &
          Hprev & Hid & _ & Hnew).
    destruct (to_int4_stored B _ _ B_ok Hpid) as [Hpz _].
    destruct (Hpz pid eq_refl) as [_ ->].
    intros r r' p Hr Hr' Hpr Hpr' Hnone. rewrite Hnew in Hr, Hr'.
    apply elem_of_app in Hr as [Hr|Hr]; apply elem_of_app in Hr' as [Hr'|Hr'].
    + rewrite Hrows in Hr, Hr'. by apply (Hfirst r r' p).
    + apply list_elem_of_singleton in Hr' as ->. simpl in *.
      injection Hpr' as <-. subst prev.
      apply should_create_snapshot_Ok in Hd
        as [(Hsel & _ & ->)|(last & changes & _ & _ & ->)].
      * rewrite (select_last_snapshot_None B B_ok) in Hsel.
        by destruct (Hsel r Hr).
      * change (previous_value _) with (VInt (s_id last)) in Hprev.
        destruct (to_int4_stored B _ _ B_ok Hprev) as [Hz _].
        by destruct (Hz _ eq_refl) as [_ ?].
    + apply list_elem_of_singleton in Hr as ->. simpl.
      pose proof (snapshot_ids_issued _ Hok1 r' Hr'). lia.
    + apply list_elem_of_singleton in Hr as ->.
      apply list_elem_of_singleton in Hr' as ->. done.
Qed.

End TurnFacts.

(** Every snapshot that turns write is flagged: on a database built by
    turns alone, [get_stats] reports as many changed snapshots as
    snapshots, whatever was observed. *)
Theorem turns_flag_every_snapshot
    (B : backend) (change_threshold : float) (turns : list turn) :
  changed_snapshots (get_stats (run_turns B change_threshold turns Db.empty))
  = total_snapshots (get_stats (run_turns B change_threshold turns Db.empty)).
Proof.
  assert (all_flagged (run_turns B change_threshold turns Db.empty)) as Hall.
  { apply (run_turns_keeps B change_threshold all_flagged).
    - intros t db. apply all_flagged_process_profile.
    - constructor. }
  unfold get_stats, all_flagged in *. simpl.
  induction Hall as [|r l Hr _ IH]; [done|].
  rewrite filter_cons. rewrite decide_True by done. simpl. by rewrite IH.
Qed.

(** On a database built by turns alone, the back-reference of a snapshot
    leads to an older snapshot of the same profile, the newest of those
    that the profile had when the snapshot was written. *)
Theorem turns_chain
    (B : backend) (change_threshold : float) (turns : list turn)
    (r : snapshot_row) (i : Z) :
  backend_ok B ->
  r ∈ profile_snapshots (run_turns B change_threshold turns Db.empty) ->
  s_previous_snapshot_id r = Some i ->
  exists r',
    r' ∈ profile_snapshots (run_turns B change_threshold turns Db.empty) /\
    s_id r' = i /\
    s_profile_id r' = s_profile_id r /\
    s_id r' < s_id r /\
    forall q, q ∈ profile_snapshots (run_turns B change_threshold turns Db.empty) ->
      s_profile_id q = s_profile_id r -> s_id q < s_id r ->
      s_snapshot_timestamp q <= s_snapshot_timestamp r'.
Proof.
  intros B_ok Hr Hi.
  assert (db_ok (run_turns B change_threshold turns Db.empty)
          /\ chain_ok (run_turns B change_threshold turns Db.empty))
    as [Hok Hchain].
  { apply (run_turns_keeps B change_threshold
             (fun db => db_ok db /\ chain_ok db)).
    - intros t db [Hok Hc]. unfold turn_effect.
      split; [by apply db_ok_process_profile | by apply chain_ok_process_profile].
    - split; [apply db_ok_empty|]. intros r0 i0 Hr0. by apply elem_of_nil in Hr0. }
  destruct (Hchain r i Hr Hi) as (r' & Hr' & Hid & Hp & Hnewest).
  exists r'. split_and!; try done.
  destruct (snapshot_previous_older _ Hok r i Hr Hi) as [Hlt _]. lia.
Qed.

(** On a database built by turns alone, only the oldest snapshot of a
    profile has no back-reference: every snapshot written for a profile
    that had one refers back. *)
Theorem turns_first_only
    (B : backend) (change_threshold : float) (turns : list turn)
    (r r' : snapshot_row) (p : Z) :
  backend_ok B ->
  r ∈ profile_snapshots (run_turns B change_threshold turns Db.empty) ->
  r' ∈ profile_snapshots (run_turns B change_threshold turns Db.empty) ->
  s_profile_id r = Some p -> s_profile_id r' = Some p ->
  s_id r < s_id r' ->
  exists i, s_previous_snapshot_id r' = Some i.
Proof.
  intros B_ok Hr Hr' Hp Hp' Hlt.
  assert (db_ok (run_turns B change_threshold turns Db.empty)
          /\ first_is_oldest (run_turns B change_threshold turns Db.empty))
    as [_ Hfirst].
  { apply (run_turns_keeps B change_threshold
             (fun db => db_ok db /\ first_is_oldest db)).
    - intros t db [Hok Hf]. unfold turn_effect.
      split; [by apply db_ok_process_profile
             | by apply first_is_oldest_process_profile].
    - split; [apply db_ok_empty|].
      intros r0 r0' p0 Hr0. by apply elem_of_nil in Hr0. }
  destruct (s_previous_snapshot_id r') as [i|] eqn:Hprev; [eauto|].
  pose proof (Hfirst r r' p Hr Hr' Hp Hp' Hprev). lia.
Qed.

(** ** The drivers *)

Lemma parse_profile_data_raw document username profile_data :
  parse_profile_data document username = Ok profile_data ->
  exists user, profile_data !! "raw_data" = Some (VDict user).
Proof.
  unfold parse_profile_data. intros H.
  destruct document as [data|]; [|discriminate].
  repeat (bind_inv H). destruct a2 as [| | | | |user]; try discriminate.
  injection H as <-. by exists user.
Qed.

Lemma create_snapshot_dict B db now profile_id profile_data change_analysis user :
  adapts_no_dict B ->
  profile_data !! "raw_data" = Some (VDict user) ->
  exists e, fst (create_snapshot B db now profile_id profile_data change_analysis)
            = Raise e.
Proof.
  intros Hno Hraw.
  destruct (create_snapshot B db now profile_id profile_data change_analysis)
    as [[i|e] db'] eqn:H; [|by exists e].
  rewrite create_snapshot_insert, Hraw in H. simpl in H.
  destruct (change_analysis !! "reason"); [|discriminate].
  destruct (change_analysis !! "previous_snapshot_id") as [[]|];
    try discriminate;
    apply insert_snapshot_Ok in H
      as (? & ? & ? & ? & ? & ? & raw & _ & _ & _ & _ & _ & _ & Hj & _);
    by rewrite Hno in Hj.
Qed.

Section DriverFacts.

Variable B : backend.
Variable change_threshold : float.

Local Abbreviation scrape := (scrape_turn B change_threshold).


Lemma run_scraping_turn_status env username db :
  run_scraping_turn B change_threshold env username db
  = (status_of (fst (scrape env username db)), snd (scrape env username db)).
Proof.
  unfold run_scraping_turn, scrape_turn.
  destruct (scrape_profile (fetched env) username) as [pd|]; [|done].
  destruct (size pd =? 0)%nat; [done|].
  destruct (get_or_create_profile B id (t_profile env) username pd db)
    as [[pid|e] db1]; [|done].
  destruct (should_create_snapshot B change_threshold db1 (t_decide env) pid pd)
    as [[sc an]|e] eqn:Hd; [|done].
  apply should_create_snapshot_reason in Hd as (reason & Hr & _).
  unfold getitem. rewrite Hr.
  destruct sc; [|by simpl; rewrite Hr].
  destruct (create_snapshot B db1 (t_create env) pid pd an) as [[i|e] db2];
    simpl; [by rewrite Hr | done].
Qed.

(** With a driver that adapts no dictionary, a turn of the loop reports no
    success and writes no snapshot. *)
Lemma scrape_turn_fails env username db :
  adapts_no_dict B ->
  failed (fst (scrape env username db)) /\
  profile_snapshots (snd (scrape env username db)) = profile_snapshots db.
Proof.
  intros Hno. unfold scrape_turn.
  destruct (scrape_profile (fetched env) username) as [pd|] eqn:Hs; [|done].
  destruct (size pd =? 0)%nat; [done|].
  assert (exists user, pd !! "raw_data" = Some (VDict user)) as [user Hraw].
  { unfold scrape_profile in Hs. destruct (fetched env) as [r|]; [|discriminate].
    destruct (success r); [|discriminate].
    destruct (parse_profile_data (document r) username) as [pd'|] eqn:Hparse;
      [|discriminate].
    injection Hs as ->. by apply parse_profile_data_raw in Hparse. }
  pose proof (get_or_create_profile_rows B id (t_profile env) username pd db)
    as Hrows.
  destruct (get_or_create_profile B id (t_profile env) username pd db)
    as [[pid|e] db1]; [|done]. simpl in Hrows.
  destruct (should_create_snapshot B change_threshold db1 (t_decide env) pid pd)
    as [[sc an]|e] eqn:Hd; [|done].
  assert (sc = true) as ->.
  { by apply should_create_snapshot_Ok in Hd as [(_ & ? & _)|(? & ? & _ & ? & _)]. }
  destruct (create_snapshot_dict B db1 (t_create env) pid pd an user Hno Hraw)
    as [e He].
  destruct (create_snapshot B db1 (t_create env) pid pd an) as [r db2] eqn:Hc.
  simpl in He. subst r. split; [done|]. simpl.
  apply create_snapshot_Raise in Hc as (_ & -> & _). done.
Qed.

End DriverFacts.


(** The two drivers do the same to the database: [run_scraping] of the web
    application leaves the database that [scrape_profiles] leaves, and its
    entries are those of [scrape_profiles] in its own format. *)
Theorem run_scraping_as_scrape_profiles
    (B : backend) (change_threshold : float) (env : nat -> turn_env)
    (usernames : list string) (db : database) :
  run_scraping B change_threshold env usernames db
  = (status_of <$> fst (scrape_profiles B change_threshold env usernames db),
     snd (scrape_profiles B change_threshold env usernames db)).
Proof.
  unfold run_scraping, scrape_profiles. generalize 0%nat. revert db.
  induction usernames as [|u us IH]; intros db i; [done|]. simpl.
  rewrite run_scraping_turn_status.
  destruct (scrape_turn B change_threshold (env i) u db) as [r db1]. simpl.
  rewrite IH.
  by destruct (scrape_profiles_from B change_threshold env (S i) us db1).
Qed.

(** With psycopg2, which adapts no dictionary, [scrape_profiles] reports
    no success and writes no snapshot, whatever the service answers: the
    parser passes the user object as [raw_data], and [create_snapshot]
    passes it on as a parameter of its [INSERT]. *)
Theorem scrape_profiles_never_succeeds
    (B : backend) (change_threshold : float) (env : nat -> turn_env)
    (usernames : list string) (db : database) :
  adapts_no_dict B ->
  Forall failed (fst (scrape_profiles B change_threshold env usernames db)) /\
  profile_snapshots (snd (scrape_profiles B change_threshold env usernames db))
  = profile_snapshots db.
Proof.
  intros Hno. unfold scrape_profiles. generalize 0%nat. revert db.
  induction usernames as [|u us IH]; intros db i; [by split|]. simpl.
  destruct (scrape_turn_fails B change_threshold (env i) u db Hno) as [Hf Hrows].
  destruct (scrape_turn B change_threshold (env i) u db) as [r db1].
  destruct (IH db1 (S i)) as [Hfs Hrows'].
  destruct (scrape_profiles_from B change_threshold env (S i) us db1) as [rs db2].
  simpl in *. split; [by constructor | congruence].
Qed.

(** ** The input form *)

Lemma append_cons c s1 s2 : String c s1 +:+ s2 = String c (s1 +:+ s2).
Proof. reflexivity. Qed.

Lemma append_empty_l s : "" +:+ s = s.
Proof. reflexivity. Qed.

Lemma string_forall_app test s1 s2 :
  string_forall test (s1 +:+ s2) = string_forall test s1 && string_forall test s2.
Proof.
  induction s1 as [|c s1 IH]; [done|]. rewrite append_cons. simpl.
  by rewrite IH, andb_assoc.
Qed.

Lemma append_empty_r s : s +:+ "" = s.
Proof. induction s as [|c s IH]; [done|]. by rewrite append_cons, IH. Qed.

Lemma append_cons_r s c rest : (s +:+ String c "") +:+ rest = s +:+ String c rest.
Proof. induction s as [|c' s IH]; [done|]. by rewrite !append_cons, IH. Qed.

Lemma replace_comma s :
  string_forall (fun c => negb (Ascii.eqb c ",")) (replace "," " " s) = true.
Proof.
  induction s as [|c s IH]; [done|]. simpl. rewrite IH.
  by destruct (Ascii.eqb c ",") eqn:Hc; [|rewrite Hc].
Qed.

(** The words of [split] hold no white space and are not empty. *)
Lemma split_from_words s : forall word,
  string_forall name_char word = true ->
  string_forall (fun c => negb (Ascii.eqb c ",")) s = true ->
  Forall (fun w => string_forall name_char w = true) (split_from word s).
Proof.
  induction s as [|c s IH]; intros word Hword Hs; simpl.
  - destruct (String.eqb word ""); by repeat constructor.
  - simpl in Hs. apply andb_true_iff in Hs as [Hc Hs].
    destruct (isspace c) eqn:Hsp.
    + apply Forall_app. split; [|by apply IH].
      destruct (String.eqb word ""); by repeat constructor.
    + apply IH; [|done]. rewrite string_forall_app, Hword. simpl.
      unfold name_char. by rewrite Hsp, Hc.
Qed.

Lemma lstrip_forall strips test s :
  string_forall test s = true -> string_forall test (lstrip strips s) = true.
Proof.
  induction s as [|c s IH]; [done|]. simpl. intros H.
  destruct (strips c); [|done]. apply IH.
  by apply andb_true_iff in H as [_ H].
Qed.

Lemma rstrip_forall strips test s :
  string_forall test s = true -> string_forall test (rstrip strips s) = true.
Proof.
  induction s as [|c s IH]; [done|]. simpl. intros H.
  apply andb_true_iff in H as [Hc H]. specialize (IH H).
  destruct (rstrip strips s) as [|c' kept].
  - destruct (strips c); [done|]. simpl. by rewrite Hc.
  - simpl in *. by rewrite Hc, IH.
Qed.

Lemma lstrip_head strips s c rest :
  lstrip strips s = String c rest -> strips c = false.
Proof.
  induction s as [|c' s IH]; [done|]. simpl.
  destruct (strips c') eqn:Hc; [done|]. by intros [= <- _].
Qed.

Lemma lstrip_id strips s :
  (forall c rest, s = String c rest -> strips c = false) -> lstrip strips s = s.
Proof.
  destruct s as [|c s]; [done|]. intros H. simpl. by rewrite (H c s).
Qed.

Lemma rstrip_id strips s :
  string_forall (fun c => negb (strips c)) s = true -> rstrip strips s = s.
Proof.
  induction s as [|c s IH]; [done|]. simpl. intros H.
  apply andb_true_iff in H as [Hc H]. rewrite (IH H).
  destruct s; [|done]. by destruct (strips c).
Qed.

Lemma split_on_absent sep s :
  string_forall (fun c => negb (Ascii.eqb c sep)) s = true -> split_on sep s = [s].
Proof.
  induction s as [|c s IH]; [done|]. simpl. intros H.
  apply andb_true_iff in H as [Hc H]. rewrite (IH H).
  by destruct (Ascii.eqb c sep).
Qed.

Lemma replace_absent old new s :
  string_forall (fun c => negb (Ascii.eqb c old)) s = true -> replace old new s = s.
Proof.
  induction s as [|c s IH]; [done|]. simpl. intros H.
  apply andb_true_iff in H as [Hc H]. rewrite (IH H).
  by destruct (Ascii.eqb c old).
Qed.

Lemma split_from_one_word s : forall word,
  string_forall (fun c => negb (isspace c)) s = true ->
  split_from word s
  = if String.eqb (word +:+ s) "" then [] else [word +:+ s].
Proof.
  induction s as [|c s IH]; intros word H; simpl.
  - by rewrite append_empty_r.
  - apply andb_true_iff in H as [Hc H].
    destruct (isspace c); [done|]. by rewrite (IH _ H), append_cons_r.
Qed.

Lemma string_forall_impl (test1 test2 : ascii -> bool) s :
  (forall c, test1 c = true -> test2 c = true) ->
  string_forall test1 s = true -> string_forall test2 s = true.
Proof.
  intros Himpl. induction s as [|c s IH]; [done|]. simpl. intros H.
  apply andb_true_iff in H as [Hc H]. by rewrite (Himpl c Hc), IH.
Qed.

Lemma at_signs_chars k : string_forall name_char (at_signs k) = true.
Proof. induction k as [|k IH]; [done|]. simpl. rewrite IH. reflexivity. Qed.

Lemma lstrip_at_signs k name :
  (forall rest, name <> String "@" rest) ->
  lstrip (Ascii.eqb "@") (at_signs k +:+ name) = name.
Proof.
  intros Hname. induction k as [|k IH];
    [|by simpl at_signs; rewrite append_cons].
  rewrite append_empty_l. apply lstrip_id. intros c rest -> . destruct (Ascii.eqb_spec "@" c) as [<-|]; [|done].
  by destruct (Hname rest).
Qed.

(** A name that [add_profiles] stores holds no white space and no comma,
    and does not begin with an at sign. *)
Theorem add_profiles_names
    (profiles_text : string) (profiles : gset string) (name : string) :
  add_profiles profiles_text = Some profiles ->
  name ∈ profiles ->
  string_forall name_char name = true /\
  forall rest, name <> String "@" rest.
Proof.
  unfold add_profiles. simpl. destruct (decide _); [done|]. intros [= <-] Hin.
  apply elem_of_list_to_set in Hin. unfold parsed_profiles in Hin.
  apply list_elem_of_bind in Hin as (line & Hin & _).
  apply list_elem_of_fmap in Hin as (p & -> & Hp).
  apply list_elem_of_filter in Hp as [_ Hp]. split.
  - apply lstrip_forall. unfold strip. apply rstrip_forall, lstrip_forall.
    pose proof (split_from_words (replace "," " " line) "" eq_refl
                  (replace_comma line)) as Hwords.
    rewrite Forall_forall in Hwords. by apply Hwords.
  - intros rest Hrest. apply lstrip_head in Hrest. done.
Qed.

(** A name of name characters that does not begin with an at sign, entered
    alone with any number of at signs before it, is stored as it is; and so
    is the empty name, when the text is at signs only. *)
Theorem add_profiles_single (k : nat) (name : string) :
  string_forall name_char name = true ->
  (forall rest, name <> String "@" rest) ->
  (0 < k)%nat \/ name <> "" ->
  add_profiles (at_signs k +:+ name) = Some {[ name ]}.
Proof.
  intros Hname Hat Hnonempty.
  assert (string_forall name_char (at_signs k +:+ name) = true) as Hall.
  { by rewrite string_forall_app, Hname, at_signs_chars. }
  assert (String.eqb (at_signs k +:+ name) "" = false) as Hne.
  { destruct k; [|done]. rewrite append_empty_l.
    destruct name; [|done]. destruct Hnonempty; [lia|done]. }
  assert (parsed_profiles (at_signs k +:+ name) = [name]) as Hparsed.
  { unfold parsed_profiles. rewrite split_on_absent.
    2:{ eapply string_forall_impl; [|exact Hall]. intros c. unfold name_char.
        destruct (Ascii.eqb_spec c "010") as [->|]; [done|done]. }
    simpl. rewrite app_nil_r. unfold line_profiles.
    rewrite replace_absent.
    2:{ eapply string_forall_impl; [|exact Hall]. intros c. unfold name_char.
        by intros [_ ?]%andb_true_iff. }
    unfold split. rewrite split_from_one_word.
    2:{ eapply string_forall_impl; [|exact Hall]. intros c. unfold name_char.
        by intros [? _]%andb_true_iff. }
    rewrite append_empty_l, Hne.
    assert (strip (at_signs k +:+ name) = at_signs k +:+ name) as Hstrip.
    { unfold strip. rewrite lstrip_id, rstrip_id; [done| |].
      - eapply string_forall_impl; [|exact Hall]. intros c. unfold name_char.
        by intros [? _]%andb_true_iff.
      - intros c rest Heq. rewrite Heq in Hall. simpl in Hall.
        apply andb_true_iff in Hall as [Hc _]. unfold name_char in Hc.
        apply andb_true_iff in Hc as [Hc _]. by destruct (isspace c). }
    rewrite filter_cons, Hstrip. rewrite decide_True.
    2:{ intros Heq. by rewrite Heq in Hne. }
    simpl. by rewrite Hstrip, lstrip_at_signs. }
  unfold add_profiles. rewrite Hparsed. simpl.
  destruct (decide _) as [Hempty|_]; [set_solver|].
  f_equal. set_solver.
Qed.

(** ** More sample runs *)

Lemma raising_call_writes_nothing_witness :
  fst (create_snapshot reference_backend tracked 0 9 (obs 1000 100 5000 20)
         periodic_analysis) = Raise ForeignKeyViolation /\
  profiles (snd (create_snapshot reference_backend tracked 0 9
                   (obs 1000 100 5000 20) periodic_analysis))
    = profiles tracked /\
  profile_snapshots (snd (create_snapshot reference_backend tracked 0 9
                            (obs 1000 100 5000 20) periodic_analysis))
    = profile_snapshots tracked.
Proof.
  split; [vm_compute; reflexivity|].
  apply (raising_call_writes_nothing reference_backend tracked 0 9 "TikTok"
           (obs 1000 100 5000 20) periodic_analysis ForeignKeyViolation).
  left. vm_compute. reflexivity.
Defined.

Lemma create_snapshot_unknown_profile_witness :
  exists e db',
    create_snapshot reference_backend Db.empty 0 1 (obs 1000 100 5000 20)
      periodic_analysis = (Raise e, db') /\
    profile_snapshots db' = [].
Proof.
  destruct (create_snapshot_unknown_profile reference_backend Db.empty 0 1
              (obs 1000 100 5000 20) periodic_analysis reference_backend_ok)
    as (e & db' & H & Hs & _).
  - intros q Hq. apply elem_of_nil in Hq. destruct Hq.
  - exists e, db'. split; [exact H | exact Hs].
Defined.

Lemma get_or_create_profile_existing_witness :
  exists db',
    get_or_create_profile reference_backend id (3 * one_day) "TIKTOK"
      (obs 1 2 3 4) tracked = (Ok 1, db') /\
    profile_snapshots db' = profile_snapshots tracked.
Proof.
  destruct (get_or_create_profile_existing reference_backend (3 * one_day)
              "TIKTOK" (obs 1 2 3 4) tracked tracked_profile)
    as (db' & H & _ & _ & Hs).
  - vm_compute. apply NoDup_singleton.
  - vm_compute. left.
  - reflexivity.
  - exists db'. split; [exact H | exact Hs].
Defined.


Lemma calculate_changes_nonpositive_baseline_witness :
  exists has_changed changes,
    calculate_changes lit_0_01 (obs 1000 100 5000 20) (obs (-7) 100 5000 20)
      = Ok (has_changed, changes) /\
    changes !! "followers_count" = None.
Proof.
  destruct (calculate_changes lit_0_01 (obs 1000 100 5000 20) (obs (-7) 100 5000 20))
    as [[has_changed changes]|e] eqn:H; [|vm_compute in H; discriminate].
  exists has_changed, changes. split; [reflexivity|].
  apply (calculate_changes_nonpositive_baseline lit_0_01
           (obs 1000 100 5000 20) (obs (-7) 100 5000 20) "followers_count" (-7)
           has_changed changes).
  - unfold metrics. left.
  - reflexivity.
  - left. lia.
  - exact H.
Defined.

Lemma null_metric_blocks_profile_witness :
  profile_snapshots
    (snd (process_profile reference_backend lit_0_01 one_day one_day one_day
            "TikTok" (obs 1000 100 5000 20) tracked_partial))
  = profile_snapshots tracked_partial.
Proof.
  apply (null_metric_blocks_profile reference_backend lit_0_01 tracked_partial
           one_day one_day one_day 1 "TikTok" (obs 1000 100 5000 20)
           partial_row "followers_count").
  - vm_compute. reflexivity.
  - unfold metrics. left.
  - reflexivity.
  - vm_compute. reflexivity.
Defined.

Lemma create_snapshot_stores_observation_witness :
  exists row,
    profile_snapshots
      (snd (create_snapshot reference_backend tracked one_day 1
              (obs 2000 100 5000 20) changed_analysis))
    = profile_snapshots tracked ++ [row] /\
    row_dict row !! "followers_count" = Some (VInt 2000).
Proof.
  destruct (create_snapshot_stores_observation reference_backend tracked one_day 1
              (obs 2000 100 5000 20) changed_analysis 2
              (snd (create_snapshot reference_backend tracked one_day 1
                      (obs 2000 100 5000 20) changed_analysis))
              reference_backend_ok)
    as (row & Hrows & _ & _ & _ & Hm).
  - vm_compute. reflexivity.
  - exists row. split; [exact Hrows|].
    destruct (Hm "followers_count") as [Hint _]; [unfold metrics; left|].
    apply (Hint 2000). reflexivity.
Defined.

Lemma same_observation_after_snapshot_witness :
  should_create_snapshot reference_backend lit_0_01
    (snd (create_snapshot reference_backend tracked one_day 1
            (obs 2000 100 5000 20) changed_analysis))
    (3 * one_day) 1 (obs 2000 100 5000 20)
  = Raise TypeError.
Proof.
  apply (same_observation_after_snapshot reference_backend lit_0_01 tracked
           one_day (3 * one_day) 1 (obs 2000 100 5000 20) changed_analysis 2).
  - exact reference_backend_ok.
  - vm_compute. reflexivity.
  - intros metric Hin. unfold metrics in Hin.
    repeat (apply elem_of_cons in Hin as [->|Hin]);
      [exists 2000 | exists 100 | exists 5000 | exists 20
      | by apply elem_of_nil in Hin];
      (split; [lia | reflexivity]).
  - vm_compute. reflexivity.
  - intros r Hr _. rewrite tracked_rows in Hr.
    apply list_elem_of_singleton in Hr as ->. vm_compute. reflexivity.
Defined.

Lemma parse_profile_data_metrics_witness :
  exists profile_data,
    parse_profile_data (Some (document_of sample_user)) "TikTok" = Ok profile_data /\
    profile_data !! "username" = Some (VStr "TikTok") /\
    profile_data !! "followers_count" = Some (VInt 1000).
Proof.
  destruct (parse_profile_data (Some (document_of sample_user)) "TikTok")
    as [profile_data|e] eqn:H; [|vm_compute in H; discriminate].
  exists profile_data. split; [reflexivity|].
  destruct (parse_profile_data_metrics _ _ _ H)
    as (user & Hname & Hraw & Hfollowers & _).
  split; [exact Hname|].
  rewrite Hfollowers. injection H as <-.
  injection Hraw as <-. reflexivity.
Defined.

Lemma turns_chain_witness :
  exists r',
    r' ∈ profile_snapshots archive /\ s_id r' = 2 /\
    s_profile_id r' = Some 1 /\ s_id r' < 3 /\
    s_snapshot_timestamp (archive_row 1 1 1000 100 5000 20 1 None)
      <= s_snapshot_timestamp r'.
Proof.
  destruct (turns_chain reference_backend lit_0_01 archive_turns
              (archive_row 3 1 3000 100 5000 20 2 (Some 2)) 2
              reference_backend_ok)
    as (r' & Hr' & Hid & Hp & Hlt & Hnewest).
  - change (run_turns _ _ _ _) with archive. rewrite archive_snapshots.
    right. right. left.
  - reflexivity.
  - exists r'. split_and!; [exact Hr' | exact Hid | exact Hp | exact Hlt |].
    apply Hnewest.
    + change (run_turns _ _ _ _) with archive. rewrite archive_snapshots. left.
    + reflexivity.
    + reflexivity.
Defined.

Lemma turns_first_only_witness :
  exists i,
    s_previous_snapshot_id (archive_row 3 1 3000 100 5000 20 2 (Some 2)) = Some i.
Proof.
  apply (turns_first_only reference_backend lit_0_01 archive_turns
           (archive_row 1 1 1000 100 5000 20 1 None)
           (archive_row 3 1 3000 100 5000 20 2 (Some 2)) 1
           reference_backend_ok).
  - change (run_turns _ _ _ _) with archive. rewrite archive_snapshots. left.
  - change (run_turns _ _ _ _) with archive. rewrite archive_snapshots.
    right. right. left.
  - reflexivity.
  - reflexivity.
  - reflexivity.
Defined.

Lemma scrape_profiles_never_succeeds_witness :
  fst (scrape_profiles reference_backend lit_0_01 growing_env
         ["TikTok"; "tiktok"] Db.empty)
  = [TurnRaised "TikTok" ProgrammingError; TurnRaised "tiktok" ProgrammingError] /\
  profile_snapshots
    (snd (scrape_profiles reference_backend lit_0_01 growing_env
            ["TikTok"; "tiktok"] Db.empty)) = [].
Proof.
  split; [vm_compute; reflexivity|].
  apply (scrape_profiles_never_succeeds reference_backend lit_0_01 growing_env
           ["TikTok"; "tiktok"] Db.empty).
  intros d. reflexivity.
Defined.

Lemma add_profiles_names_witness :
  add_profiles "@TikTok, nasa" = Some {[ "TikTok"; "nasa" ]} /\
  string_forall name_char "TikTok" = true /\
  forall rest, "TikTok" <> String "@" rest.
Proof.
  assert (add_profiles "@TikTok, nasa" = Some {[ "TikTok"; "nasa" ]}) as H
    by (vm_compute; reflexivity).
  split; [exact H|].
  apply (add_profiles_names "@TikTok, nasa" {[ "TikTok"; "nasa" ]} "TikTok" H).
  set_solver.
Defined.

Lemma add_profiles_single_witness : add_profiles "@@TikTok" = Some {[ "TikTok" ]}.
Proof.
  apply (add_profiles_single 2 "TikTok").
  - reflexivity.
  - intros rest H. discriminate H.
  - right. intros H. discriminate H.
Defined.
